(** * Announcement endpoints of the High School Management System API

    A shallow embedding of [src/backend/routers/announcements.py] and the
    properties its specification states about it.

    Conventions of the embedding.
    - A Python [str] is a [string]; a character of it is read as a code
      point below 256, so that the store's binary string order is
      [String.compare].
    - [Optional[str]] is [option string]; [None] is [None].
    - A raised [HTTPException] is a value ([Raised]); a handler is a function
      from the database to an outcome and the database it leaves behind.
    - The two collections of [..database] are finite maps keyed by [_id].
    - The clock ([date.today()]) and the identifier that [insert_one]
      generates for a new document are arguments of the handlers that use
      them. *)

From Stdlib Require Import Ascii.
From stdpp Require Import gmap strings list fin_maps sorting.

Local Open Scope Z_scope.

(** * Calendar dates: the part of [datetime.date] the handlers use *)

Module Date.

Record date := mkdate { year : Z; month : Z; day : Z }.

Definition MINYEAR : Z := 1.
Definition MAXYEAR : Z := 9999.

Definition is_leap (y : Z) : bool :=
  (y mod 4 =? 0) && (negb (y mod 100 =? 0) || (y mod 400 =? 0)).

Definition days_in_month (y m : Z) : Z :=
  match m with
  | 1 => 31 | 2 => if is_leap y then 29 else 28 | 3 => 31 | 4 => 30
  | 5 => 31 | 6 => 30 | 7 => 31 | 8 => 31 | 9 => 30 | 10 => 31
  | 11 => 30 | 12 => 31
  | _ => 0
  end.

(** The range checks every [date] constructor performs. *)
Definition valid (d : date) : bool :=
  (MINYEAR <=? year d) && (year d <=? MAXYEAR)
  && (1 <=? month d) && (month d <=? 12)
  && (1 <=? day d) && (day d <=? days_in_month (year d) (month d)).

(** Tuple order on (year, month, day), as [date.__lt__] and friends. *)
Definition thenc (c k : comparison) : comparison :=
  match c with Eq => k | _ => c end.

Definition compare (a b : date) : comparison :=
  thenc (year a ?= year b) (thenc (month a ?= month b) (day a ?= day b)).

Definition gtb (a b : date) : bool :=
  match compare a b with Gt => true | _ => false end.

Definition leb (a b : date) : bool := negb (gtb a b).

(** ** Text form *)

Definition digit_char (n : Z) : ascii := ascii_of_N (Z.to_N (48 + n)).

Fixpoint parse_digits (acc : Z) (cs : list ascii) : option Z :=
  match cs with
  | [] => Some acc
  | c :: cs => k ← Ascii.is_nat c; parse_digits (10 * acc + Z.of_nat k) cs
  end.

Definition pad2 (n : Z) : list ascii :=
  [digit_char (n / 10 mod 10); digit_char (n mod 10)].

Definition pad4 (n : Z) : list ascii :=
  [digit_char (n / 1000 mod 10); digit_char (n / 100 mod 10);
   digit_char (n / 10 mod 10); digit_char (n mod 10)].

(** [date.isoformat()]: ["%04d-%02d-%02d"].  The fields of a date are
    within the ranges of [valid], so the widths are exact. *)
Definition isoformat (d : date) : string :=
  String.string_of_list_ascii
    (pad4 (year d) ++ ["-"%char] ++ pad2 (month d) ++ ["-"%char]
       ++ pad2 (day d)).

(** Ten characters: eight digits around two hyphens. *)
Definition digits8 (a b c e f g h i : Z) : string :=
  String.string_of_list_ascii
    [digit_char a; digit_char b; digit_char c; digit_char e; "-"%char;
     digit_char f; digit_char g; "-"%char; digit_char h; digit_char i].

(** [date.fromisoformat] on the YYYY-MM-DD form, the one the handlers'
    error detail names: ten characters, ASCII digits around two hyphens,
    then the constructor's range checks.  [None] stands for the
    [ValueError].  (Interpreters from 3.11 on also read other ISO 8601
    spellings, such as the basic form without hyphens; those are outside
    this model.) *)
Definition fromisoformat (s : string) : option date :=
  match String.list_ascii_of_string s with
  | [y1; y2; y3; y4; h1; m1; m2; h2; d1; d2] =>
      if bool_decide (h1 = "-"%char ∧ h2 = "-"%char) then
        y ← parse_digits 0 [y1; y2; y3; y4];
        m ← parse_digits 0 [m1; m2];
        d ← parse_digits 0 [d1; d2];
        let dt := mkdate y m d in
        if valid dt then Some dt else None
      else None
  | _ => None
  end.

End Date.

Export Date (date, mkdate).

(** * Text: the [str] methods the handlers call *)

Module Str.

(** [str.isspace] on the code points below 256: TAB..CR, FS..US, SPACE,
    NEL and NBSP. *)
Definition isspace (c : ascii) : bool :=
  let n := N_of_ascii c in
  ((9 <=? n) && (n <=? 13) || (28 <=? n) && (n <=? 32)
   || (n =? 133) || (n =? 160))%N.

Fixpoint lstrip (s : string) : string :=
  match s with
  | String c s' => if isspace c then lstrip s' else s
  | EmptyString => EmptyString
  end.

Definition rstrip (s : string) : string :=
  String.rev (lstrip (String.rev s)).

(** [s.strip()] *)
Definition strip (s : string) : string := rstrip (lstrip s).

Fixpoint map (f : ascii → ascii) (s : string) : string :=
  match s with
  | String c s' => String (f c) (map f s')
  | EmptyString => EmptyString
  end.

Fixpoint all (p : ascii → bool) (s : string) : bool :=
  match s with
  | String c s' => p c && all p s'
  | EmptyString => true
  end.

End Str.

(** * The document store *)

Module Bson.

(** An [ObjectId] is twelve bytes; it is kept here as the 24 lower-case
    hexadecimal digits that [str] prints, so two identifiers are equal
    exactly when their bytes are. *)
Record ObjectId := mkObjectId { oid_hex : string }.

Definition is_hexdigit (c : ascii) : bool :=
  let n := N_of_ascii c in
  ((48 <=? n) && (n <=? 57) || (65 <=? n) && (n <=? 70)
   || (97 <=? n) && (n <=? 102))%N.

Definition lower (c : ascii) : ascii :=
  let n := N_of_ascii c in
  if ((65 <=? n) && (n <=? 90))%N then ascii_of_N (n + 32) else c.

(** [ObjectId(s)] for a [str] argument: 24 hexadecimal digits, else
    [InvalidId] ([None]). *)
Definition ObjectId_of_str (s : string) : option ObjectId :=
  if bool_decide (String.length s = 24%nat) && Str.all is_hexdigit s
  then Some (mkObjectId (Str.map lower s))
  else None.

(** [str(oid)] *)
Definition str_of_ObjectId (oid : ObjectId) : string := oid_hex oid.

(** A field value as the handlers meet it: a string, or null.  A field
    that is missing reads as null, both in [dict.get] and in a filter. *)
Inductive value := Null | Text (s : string).

(** The store's order on values: null sorts before every string, strings
    compare byte-wise. *)
Definition compare (a b : value) : comparison :=
  match a, b with
  | Null, Null => Eq
  | Null, Text _ => Lt
  | Text _, Null => Gt
  | Text s, Text t => String.compare s t
  end.

End Bson.

Export Bson (ObjectId, mkObjectId, ObjectId_of_str, str_of_ObjectId).

Global Instance ObjectId_eq_dec : EqDecision ObjectId.
Proof. solve_decision. Defined.

Global Instance ObjectId_countable : Countable ObjectId :=
  inj_countable' Bson.oid_hex mkObjectId
    (λ x, match x with mkObjectId _ => eq_refl end).

(** The fields of an announcement document other than [_id], which is the
    key under which the collection holds it. *)
Module Doc.
Record t := mk {
  message : string;
  start_date : option string;
  expiration_date : string
}.
End Doc.

(** The announcement object a handler returns. *)
Module Json.
Record t := mk {
  id : string;
  message : string;
  start_date : option string;
  expiration_date : string
}.
End Json.

(** The fields of a teacher document other than [_id]; the handlers never
    look inside. *)
Record Teacher := mkTeacher { teacher_fields : list (string * string) }.

Module Mongo.

(** A document as a cursor yields it. *)
Definition document : Type := ObjectId * Doc.t.

Inductive field := message | start_date | expiration_date.

Definition get (f : field) (d : Doc.t) : Bson.value :=
  match f with
  | message => Bson.Text (Doc.message d)
  | start_date => from_option Bson.Text Bson.Null (Doc.start_date d)
  | expiration_date => Bson.Text (Doc.expiration_date d)
  end.

(** Filters: [{f: v}], [{f: {"$gte": s}}], [{f: {"$lte": s}}], [{"$or":
    [...]}]; a dict with several keys is the conjunction of its entries
    and [{}] is [all_of []]. *)
#[local] Unset Elimination Schemes.
Inductive query :=
| eq (f : field) (v : Bson.value)
| gte (f : field) (s : string)
| lte (f : field) (s : string)
| any_of (qs : list query)
| all_of (qs : list query).
#[local] Set Elimination Schemes.

(** A range operator with a string operand only matches strings. *)
Definition text_cmp (test : comparison → bool) (v : Bson.value) (s : string)
  : bool :=
  match v with
  | Bson.Text t => test (String.compare t s)
  | Bson.Null => false
  end.

Fixpoint matches (q : query) (d : Doc.t) : bool :=
  match q with
  | eq f v => bool_decide (Bson.compare (get f d) v = Eq)
  | gte f s => text_cmp (λ c, bool_decide (c ≠ Lt)) (get f d) s
  | lte f s => text_cmp (λ c, bool_decide (c ≠ Gt)) (get f d) s
  | any_of qs => existsb (λ q', matches q' d) qs
  | all_of qs => forallb (λ q', matches q' d) qs
  end.

(** Ascending lexicographic order on a list of sort keys (every sort in
    the handlers has direction [1]). *)
Fixpoint compare_by (keys : list field) (a b : Doc.t) : comparison :=
  match keys with
  | [] => Eq
  | f :: keys =>
      Date.thenc (Bson.compare (get f a) (get f b)) (compare_by keys a b)
  end.

Definition sort_le (keys : list field) (a b : document) : Prop :=
  compare_by keys a.2 b.2 ≠ Gt.

Global Instance sort_le_dec keys : RelDecision (sort_le keys).
Proof. intros a b. unfold sort_le. apply _. Defined.

(** [collection.find(q)], in whatever order the store keeps the
    documents. *)
Definition find (q : query) (c : gmap ObjectId Doc.t) : list document :=
  map_to_list (filter (λ kv, matches q kv.2 = true) c).

(** [cursor.sort(keys)].  The store promises the order of the keys and
    nothing about ties; the properties below use only that the result is a
    sorted permutation. *)
Definition sort (keys : list field) (docs : list document) : list document :=
  merge_sort (sort_le keys) docs.

(** [collection.find_one({"_id": oid})] *)
Definition find_one (oid : ObjectId) (c : gmap ObjectId Doc.t)
  : option document :=
  d ← c !! oid; Some (oid, d).

(** [collection.insert_one(doc)] under the identifier generated for it;
    [None] is the store's duplicate-key error. *)
Definition insert_one (oid : ObjectId) (d : Doc.t) (c : gmap ObjectId Doc.t)
  : option (gmap ObjectId Doc.t) :=
  match c !! oid with
  | Some _ => None
  | None => Some (<[oid := d]> c)
  end.

(** [collection.update_one({"_id": oid}, {"$set": ...})]: the matched
    count and the collection afterwards. *)
Definition update_one (oid : ObjectId) (set : Doc.t → Doc.t)
    (c : gmap ObjectId Doc.t) : nat * gmap ObjectId Doc.t :=
  match c !! oid with
  | Some d => (1%nat, <[oid := set d]> c)
  | None => (0%nat, c)
  end.

(** [collection.delete_one({"_id": oid})]: the deleted count and the
    collection afterwards. *)
Definition delete_one (oid : ObjectId) (c : gmap ObjectId Doc.t)
  : nat * gmap ObjectId Doc.t :=
  match c !! oid with
  | Some _ => (1%nat, delete oid c)
  | None => (0%nat, c)
  end.

End Mongo.

(** * Handlers *)

Record HTTPException := mkHTTPException { status_code : Z; detail : string }.

Record Database := mkDatabase {
  announcements_collection : gmap ObjectId Doc.t;
  teachers_collection : gmap string Teacher
}.

Inductive outcome (A : Type) :=
| Returned (a : A)
| Raised (e : HTTPException).
Arguments Returned {A} a.
Arguments Raised {A} e.

(** A handler runs against the database and leaves it as it is at the moment
    it returns or raises: nothing is rolled back. *)
Definition handler (A : Type) : Type := Database → outcome A * Database.

Definition ret {A} (a : A) : handler A := λ db, (Returned a, db).

Definition raise {A} (e : HTTPException) : handler A := λ db, (Raised e, db).

Definition bind {A B} (m : handler A) (k : A → handler B) : handler B :=
  λ db,
    match m db with
    | (Returned a, db') => k a db'
    | (Raised e, db') => (Raised e, db')
    end.

Notation "'let*' x ':=' m 'in' k" := (bind m (λ x, k))
  (at level 10, x name, m at level 100, k at level 200,
   format "'[v' 'let*'  x  ':='  m  'in' '/' k ']'").
Notation "'do' m 'in' k" := (bind m (λ _, k))
  (at level 10, m at level 100, k at level 200,
   format "'[v' 'do'  m  'in' '/' k ']'").

(** A computation that cannot touch the database. *)
Definition pure {A} (o : outcome A) : handler A := λ db, (o, db).

(** Reading and writing the announcements collection. *)
Definition announcements {A} (f : gmap ObjectId Doc.t → A) : handler A :=
  λ db, (Returned (f (announcements_collection db)), db).

Definition announcements_write {A}
    (f : gmap ObjectId Doc.t → A * gmap ObjectId Doc.t) : handler A :=
  λ db,
    let '(a, c) := f (announcements_collection db) in
    (Returned a, mkDatabase c (teachers_collection db)).

Definition teachers {A} (f : gmap string Teacher → A) : handler A :=
  λ db, (Returned (f (teachers_collection db)), db).

(** What the framework answers when a handler dies of an exception that is
    not an [HTTPException]. *)
Definition server_error : HTTPException :=
  mkHTTPException 500 "Internal Server Error".

Definition _validate_teacher (teacher_username : option string)
  : handler Teacher :=
  match teacher_username with
  | None | Some EmptyString =>
      raise (mkHTTPException 401 "Authentication required for this action")
  | Some teacher_username =>
      let* teacher := teachers (λ c, c !! teacher_username) in
      match teacher with
      | None => raise (mkHTTPException 401 "Invalid teacher credentials")
      | Some teacher => ret teacher
      end
  end.

Definition _parse_date_or_none (date_str : option string) (field_name : string)
  : outcome (option date) :=
  match date_str with
  | None | Some EmptyString => Returned None
  | Some date_str =>
      match Date.fromisoformat date_str with
      | Some d => Returned (Some d)
      | None =>
          Raised (mkHTTPException 400
                    (field_name +:+ " must be in YYYY-MM-DD format"))
      end
  end.

Definition _serialize_announcement (announcement : Mongo.document) : Json.t :=
  {| Json.id := str_of_ObjectId announcement.1;
     Json.message := Doc.message announcement.2;
     Json.start_date := Doc.start_date announcement.2;
     Json.expiration_date := Doc.expiration_date announcement.2 |}.

(** [_serialize_announcement] on the result of a [find_one], which is [None]
    when nothing was found; subscripting [None] is a [TypeError]. *)
Definition serialize_found (found : option Mongo.document) : handler Json.t :=
  match found with
  | Some announcement => ret (_serialize_announcement announcement)
  | None => raise server_error
  end.

Definition get_announcements (today : date) : handler (list Json.t) :=
  let today := Date.isoformat today in
  let query :=
    Mongo.all_of [
      Mongo.gte Mongo.expiration_date today;
      Mongo.any_of [
        Mongo.eq Mongo.start_date Bson.Null;
        Mongo.eq Mongo.start_date (Bson.Text "");
        Mongo.lte Mongo.start_date today
      ]
    ] in
  let* announcements :=
    announcements (λ c, Mongo.sort [Mongo.expiration_date] (Mongo.find query c)) in
  ret (_serialize_announcement <$> announcements).

Definition get_all_announcements (teacher_username : option string)
  : handler (list Json.t) :=
  do _validate_teacher teacher_username in
  let* announcements :=
    announcements (λ c,
      Mongo.sort [Mongo.expiration_date; Mongo.start_date]
        (Mongo.find (Mongo.all_of []) c)) in
  ret (_serialize_announcement <$> announcements).

(** [parsed_start and parsed_start > parsed_expiration]: a date is always
    truthy, so the test is the comparison when a start date was parsed. *)
Definition starts_after (parsed_start : option date) (parsed_expiration : date)
  : bool :=
  match parsed_start with
  | Some parsed_start => Date.gtb parsed_start parsed_expiration
  | None => false
  end.

Definition create_announcement (new_id : ObjectId)
    (message expiration_date : string)
    (start_date teacher_username : option string) : handler Json.t :=
  do _validate_teacher teacher_username in
  let message := Str.strip message in
  if bool_decide (message = "") then
    raise (mkHTTPException 400 "Message is required")
  else
  let* parsed_start := pure (_parse_date_or_none start_date "start_date") in
  let* parsed_expiration :=
    pure (_parse_date_or_none (Some expiration_date) "expiration_date") in
  match parsed_expiration with
  | None => raise (mkHTTPException 400 "expiration_date is required")
  | Some parsed_expiration =>
  if starts_after parsed_start parsed_expiration then
    raise (mkHTTPException 400 "expiration_date must be on or after start_date")
  else
  let new_announcement :=
    {| Doc.message := message;
       Doc.start_date := Date.isoformat <$> parsed_start;
       Doc.expiration_date := Date.isoformat parsed_expiration |} in
  let* result :=
    announcements_write (λ c,
      match Mongo.insert_one new_id new_announcement c with
      | Some c' => (Some new_id, c')
      | None => (None, c)
      end) in
  match result with
  | None => raise server_error
  | Some inserted_id =>
      let* created := announcements (Mongo.find_one inserted_id) in
      serialize_found created
  end
  end.

Definition update_announcement (announcement_id message expiration_date : string)
    (start_date teacher_username : option string) : handler Json.t :=
  do _validate_teacher teacher_username in
  let message := Str.strip message in
  if bool_decide (message = "") then
    raise (mkHTTPException 400 "Message is required")
  else
  let* parsed_start := pure (_parse_date_or_none start_date "start_date") in
  let* parsed_expiration :=
    pure (_parse_date_or_none (Some expiration_date) "expiration_date") in
  match parsed_expiration with
  | None => raise (mkHTTPException 400 "expiration_date is required")
  | Some parsed_expiration =>
  if starts_after parsed_start parsed_expiration then
    raise (mkHTTPException 400 "expiration_date must be on or after start_date")
  else
  match ObjectId_of_str announcement_id with
  | None => raise (mkHTTPException 400 "Invalid announcement id")
  | Some object_id =>
  let* matched_count :=
    announcements_write
      (Mongo.update_one object_id (λ _,
         {| Doc.message := message;
            Doc.start_date := Date.isoformat <$> parsed_start;
            Doc.expiration_date := Date.isoformat parsed_expiration |})) in
  if bool_decide (matched_count = 0%nat) then
    raise (mkHTTPException 404 "Announcement not found")
  else
  let* updated := announcements (Mongo.find_one object_id) in
  serialize_found updated
  end
  end.

Definition delete_announcement (announcement_id : string)
    (teacher_username : option string) : handler (gmap string string) :=
  do _validate_teacher teacher_username in
  match ObjectId_of_str announcement_id with
  | None => raise (mkHTTPException 400 "Invalid announcement id")
  | Some object_id =>
  let* deleted_count := announcements_write (Mongo.delete_one object_id) in
  if bool_decide (deleted_count = 0%nat) then
    raise (mkHTTPException 404 "Announcement not found")
  else
  ret {[ "message" := "Announcement deleted" ]}
  end.

(** * The specification's vocabulary *)

(** The error taxonomy, as the responses the handlers raise. *)
Definition Unauthenticated : HTTPException :=
  mkHTTPException 401 "Authentication required for this action".
Definition InvalidCredentials : HTTPException :=
  mkHTTPException 401 "Invalid teacher credentials".
Definition InvalidDateFormat (field_label : string) : HTTPException :=
  mkHTTPException 400 (field_label +:+ " must be in YYYY-MM-DD format").
Definition EmptyMessage : HTTPException :=
  mkHTTPException 400 "Message is required".
Definition MissingExpiration : HTTPException :=
  mkHTTPException 400 "expiration_date is required".
Definition InvalidDateRange : HTTPException :=
  mkHTTPException 400 "expiration_date must be on or after start_date".
Definition InvalidIdentifier : HTTPException :=
  mkHTTPException 400 "Invalid announcement id".
Definition NotFound : HTTPException :=
  mkHTTPException 404 "Announcement not found".

(** A text is a valid YYYY-MM-DD calendar date when it is the ISO form of a
    date that passes the calendar's range checks. *)
Definition is_iso_date (s : string) : Prop :=
  ∃ d : date, Date.valid d = true ∧ s = Date.isoformat d.

(** "Active" in the words of the specification: the expiration date is today
    or later, and the start date is absent, empty, or today or earlier.  The
    dates are the stored texts and [today] the text of the current date, in
    the store's order on strings. *)
Definition active_on (today : string) (d : Doc.t) : Prop :=
  (today ≤ Doc.expiration_date d)%string
  ∧ match Doc.start_date d with
    | None => True
    | Some s => s = "" ∨ (s ≤ today)%string
    end.

Global Instance active_on_dec today d : Decision (active_on today d).
Proof. unfold active_on. destruct (Doc.start_date d); apply _. Defined.

(** What a request's [start_date] is stored as once validated: nothing for
    a missing or empty one, the text itself otherwise. *)
Definition supplied (start_date : option string) : option string :=
  match start_date with
  | None | Some EmptyString => None
  | Some s => Some s
  end.

(** The guard lets a caller through. *)
Definition authenticated (teacher_username : option string) (db : Database)
  : Prop :=
  ∃ u, teacher_username = Some u ∧ u ≠ ""
       ∧ is_Some (teachers_collection db !! u).

(** A stored [start_date] in normal form: null, or the ISO text of a date. *)
Definition normalized_start (v : option string) : Prop :=
  v = None ∨ ∃ s, v = Some s ∧ is_iso_date s.

(** Ascending order of the returned objects on [expiration_date]. *)
Definition by_expiration_date (a b : Json.t) : Prop :=
  (Json.expiration_date a ≤ Json.expiration_date b)%string.

(** ** Vocabulary for the properties beyond the specification's claims *)

(** The order of the management listing: ascending [expiration_date], and
    among equal expiration dates ascending [start_date], a null start date
    before every text. *)
Definition start_le (a b : option string) : Prop :=
  match a, b with
  | None, _ => True
  | Some _, None => False
  | Some s, Some t => (s ≤ t)%string
  end.

Definition by_expiration_then_start (a b : Json.t) : Prop :=
  (Json.expiration_date a ≤ Json.expiration_date b)%string
  ∧ (Json.expiration_date a = Json.expiration_date b →
     start_le (Json.start_date a) (Json.start_date b)).

(** The request fields both writing handlers accept: a message that is not
    blank, an [expiration_date] that is the ISO text of a calendar date, and
    a [start_date] that is missing, empty, or the ISO text of a calendar
    date not after the expiration date. *)
Definition acceptable (message expiration_date : string)
    (start_date : option string) : Prop :=
  Str.strip message ≠ ""
  ∧ ∃ e, Date.valid e = true ∧ expiration_date = Date.isoformat e
         ∧ match supplied start_date with
           | None => True
           | Some s =>
               ∃ b, Date.valid b = true ∧ s = Date.isoformat b
                    ∧ Date.leb b e = true
           end.

(** The record a writing handler stores for an accepted request. *)
Definition record_of (message expiration_date : string)
    (start_date : option string) : Doc.t :=
  Doc.mk (Str.strip message) (supplied start_date) expiration_date.

(** Both writing handlers raise [e] on these fields and leave the database
    as it is, whatever the identifier. *)
Definition writers_raise (e : HTTPException) (message expiration_date : string)
    (start_date teacher_username : option string) (db : Database) : Prop :=
  (∀ new_id,
     create_announcement new_id message expiration_date start_date
       teacher_username db = (Raised e, db))
  ∧ (∀ announcement_id,
       update_announcement announcement_id message expiration_date
         start_date teacher_username db = (Raised e, db)).

(** The data model's invariant on a stored record: the message is not empty
    and carries no surrounding whitespace, the expiration date is the ISO
    text of a calendar date, and the start date is null or the ISO text of a
    calendar date that is not after the expiration date. *)
Definition well_formed (d : Doc.t) : Prop :=
  Doc.message d ≠ ""
  ∧ Str.strip (Doc.message d) = Doc.message d
  ∧ ∃ e, Date.valid e = true ∧ Doc.expiration_date d = Date.isoformat e
         ∧ match Doc.start_date d with
           | None => True
           | Some s =>
               ∃ b, Date.valid b = true ∧ s = Date.isoformat b
                    ∧ Date.leb b e = true
           end.

Definition well_formed_store (db : Database) : Prop :=
  map_Forall (λ _ d, well_formed d) (announcements_collection db).

(** A text that does not begin with whitespace. *)
Definition no_lead (s : string) : Prop :=
  match s with
  | String c _ => Str.isspace c = false
  | EmptyString => True
  end.

(** The errors the field checks and the guard can raise, in the order the
    writing handlers reach them. *)
Definition validation_errors : list HTTPException :=
  [Unauthenticated; InvalidCredentials; EmptyMessage;
   InvalidDateFormat "start_date"; InvalidDateFormat "expiration_date";
   MissingExpiration; InvalidDateRange].

(** The window of an announcement contains [today], on the calendar. *)
Definition in_window (today : date) (start : option date) (expiration : date)
  : Prop :=
  Date.leb today expiration = true
  ∧ match start with
    | None => True
    | Some b => Date.leb b today = true
    end.

(** Two returned objects are in calendar order of their expiration dates,
    whenever those are ISO texts. *)
Definition chronological (a b : Json.t) : Prop :=
  ∀ ea eb,
    Date.valid ea = true → Date.valid eb = true →
    Json.expiration_date a = Date.isoformat ea →
    Json.expiration_date b = Date.isoformat eb →
    Date.leb ea eb = true.

(** * A small school, for the examples *)

Module Example.

Definition teacher : string := "mrodriguez".

Definition exam : ObjectId := mkObjectId "665f1c2ab7e4d90a1c3e5f70".
Definition fair : ObjectId := mkObjectId "665f1c2ab7e4d90a1c3e5f71".
Definition trip : ObjectId := mkObjectId "665f1c2ab7e4d90a1c3e5f72".

Definition school : Database :=
  mkDatabase
    (<[exam := Doc.mk "Exam Friday" None "2025-06-01"]>
       (<[fair := Doc.mk "Science fair" (Some "") "2025-06-20"]> ∅))
    {[ teacher := mkTeacher [("display_name", "Ms. Rodriguez")] ]}.

Definition today : date := mkdate 2025 5 30.

End Example.

(** A store for the examples in which every record satisfies the
    invariant. *)
Module Term.

Definition store : Database :=
  mkDatabase
    (<[Example.exam := Doc.mk "Exam Friday" None "2025-06-01"]>
       (<[Example.trip := Doc.mk "Field trip" (Some "2025-06-02")
                            "2025-06-10"]> ∅))
    (teachers_collection Example.school).

End Term.

(** * Facts about dates and their text form *)

Section date_facts.

Import Date.

Lemma digit_char_inv c k :
  Ascii.is_nat c = Some k → c = digit_char (Z.of_nat k) ∧ (k < 10)%nat.
Proof.
  destruct c as [[] [] [] [] [] [] [] []]; simpl; try discriminate;
    intros [= <-]; split; (reflexivity || lia).
Qed.

Lemma is_nat_digit_char k :
  0 ≤ k < 10 → Ascii.is_nat (digit_char k) = Some (Z.to_nat k).
Proof.
  intros Hk.
  assert (k = 0 ∨ k = 1 ∨ k = 2 ∨ k = 3 ∨ k = 4 ∨ k = 5 ∨ k = 6 ∨ k = 7
          ∨ k = 8 ∨ k = 9) as Hc by lia.
  repeat destruct Hc as [-> | Hc]; try subst k; reflexivity.
Qed.

Lemma compare_digit_char p q :
  0 ≤ p < 10 → 0 ≤ q < 10 →
  Ascii.compare (digit_char p) (digit_char q) = (p ?= q).
Proof.
  intros Hp Hq. unfold Ascii.compare, digit_char.
  rewrite !N_ascii_embedding by lia.
  rewrite Z2N.inj_compare by lia.
  destruct (Z.compare_spec p q), (Z.compare_spec (48 + p) (48 + q));
    (reflexivity || lia).
Qed.

Lemma compare_horner x y p q :
  0 ≤ p < 10 → 0 ≤ q < 10 →
  (10 * x + p ?= 10 * y + q) = thenc (x ?= y) (p ?= q).
Proof.
  intros Hp Hq.
  destruct (Z.compare_spec x y), (Z.compare_spec p q),
    (Z.compare_spec (10 * x + p) (10 * y + q)); simpl;
    (reflexivity || lia).
Qed.

Lemma pad2_horner p q :
  0 ≤ p < 10 → 0 ≤ q < 10 →
  pad2 (10 * (10 * 0 + p) + q) = [digit_char p; digit_char q].
Proof.
  intros Hp Hq. unfold pad2. repeat f_equal; Z.div_mod_to_equations; lia.
Qed.

Lemma pad4_horner a b c d :
  0 ≤ a < 10 → 0 ≤ b < 10 → 0 ≤ c < 10 → 0 ≤ d < 10 →
  pad4 (10 * (10 * (10 * (10 * 0 + a) + b) + c) + d)
  = [digit_char a; digit_char b; digit_char c; digit_char d].
Proof.
  intros Ha Hb Hc Hd. unfold pad4.
  repeat f_equal; Z.div_mod_to_equations; lia.
Qed.


Lemma fromisoformat_inv s d :
  fromisoformat s = Some d →
  ∃ a b c e f g h i,
    (0 ≤ a < 10 ∧ 0 ≤ b < 10 ∧ 0 ≤ c < 10 ∧ 0 ≤ e < 10)
    ∧ (0 ≤ f < 10 ∧ 0 ≤ g < 10 ∧ 0 ≤ h < 10 ∧ 0 ≤ i < 10)
    ∧ s = digits8 a b c e f g h i
    ∧ d = mkdate (10 * (10 * (10 * (10 * 0 + a) + b) + c) + e)
                 (10 * (10 * 0 + f) + g) (10 * (10 * 0 + h) + i)
    ∧ valid d = true.
Proof.
  unfold fromisoformat.
  pose proof (String.string_of_list_ascii_of_string s) as Hs.
  destruct (String.list_ascii_of_string s)
    as [|y1 [|y2 [|y3 [|y4 [|h1 [|m1 [|m2 [|h2 [|d1 [|d2 [|? ?]]]]]]]]]]];
    try discriminate.
  case_bool_decide as Hh; [|discriminate]. destruct Hh as [-> ->].
  cbn [parse_digits mbind option_bind].
  destruct (Ascii.is_nat y1) as [a|] eqn:Ha; [|discriminate].
  destruct (Ascii.is_nat y2) as [b|] eqn:Hb; [|discriminate].
  destruct (Ascii.is_nat y3) as [c|] eqn:Hc; [|discriminate].
  destruct (Ascii.is_nat y4) as [e|] eqn:He; [|discriminate].
  destruct (Ascii.is_nat m1) as [f|] eqn:Hf; [|discriminate].
  destruct (Ascii.is_nat m2) as [g|] eqn:Hg; [|discriminate].
  destruct (Ascii.is_nat d1) as [h|] eqn:Hh; [|discriminate].
  destruct (Ascii.is_nat d2) as [i|] eqn:Hi; [|discriminate].
  cbn [parse_digits mbind option_bind].
  intros Hd.
  destruct (valid _) eqn:Hv in Hd; [|discriminate]. injection Hd as <-.
  apply digit_char_inv in Ha as [-> ?], Hb as [-> ?], Hc as [-> ?],
    He as [-> ?], Hf as [-> ?], Hg as [-> ?], Hh as [-> ?], Hi as [-> ?].
  exists (Z.of_nat a), (Z.of_nat b), (Z.of_nat c), (Z.of_nat e),
    (Z.of_nat f), (Z.of_nat g), (Z.of_nat h), (Z.of_nat i).
  split_and!; try lia; try done.
Qed.

Lemma isoformat_digits8 a b c e f g h i :
  (0 ≤ a < 10 ∧ 0 ≤ b < 10 ∧ 0 ≤ c < 10 ∧ 0 ≤ e < 10) →
  (0 ≤ f < 10 ∧ 0 ≤ g < 10 ∧ 0 ≤ h < 10 ∧ 0 ≤ i < 10) →
  isoformat (mkdate (10 * (10 * (10 * (10 * 0 + a) + b) + c) + e)
                    (10 * (10 * 0 + f) + g) (10 * (10 * 0 + h) + i))
  = digits8 a b c e f g h i.
Proof.
  intros (?&?&?&?) (?&?&?&?). unfold isoformat, digits8.
  cbn [year month day]. by rewrite pad4_horner, !pad2_horner.
Qed.

(** Printing undoes parsing: a text that parses is the canonical form of
    its date, and that date passed the range checks. *)
Lemma isoformat_fromisoformat s d :
  fromisoformat s = Some d → isoformat d = s ∧ valid d = true.
Proof.
  intros (a&b&c&e&f&g&h&i&H1&H2&->&->&Hv)%fromisoformat_inv.
  split; [by apply isoformat_digits8 | done].
Qed.

Lemma fromisoformat_digits8 a b c e f g h i :
  (0 ≤ a < 10 ∧ 0 ≤ b < 10 ∧ 0 ≤ c < 10 ∧ 0 ≤ e < 10) →
  (0 ≤ f < 10 ∧ 0 ≤ g < 10 ∧ 0 ≤ h < 10 ∧ 0 ≤ i < 10) →
  let d := mkdate (10 * (10 * (10 * (10 * 0 + a) + b) + c) + e)
                  (10 * (10 * 0 + f) + g) (10 * (10 * 0 + h) + i) in
  fromisoformat (digits8 a b c e f g h i)
  = if valid d then Some d else None.
Proof.
  intros (?&?&?&?) (?&?&?&?) d. unfold fromisoformat, digits8.
  rewrite String.list_ascii_of_string_of_list_ascii.
  rewrite bool_decide_eq_true_2 by done.
  cbn [parse_digits mbind option_bind].
  rewrite !is_nat_digit_char by done.
  cbn [parse_digits mbind option_bind].
  rewrite !Z2Nat.id by lia. done.
Qed.

Lemma valid_bounds d :
  valid d = true →
  1 ≤ year d ≤ 9999 ∧ 1 ≤ month d ≤ 12 ∧ 1 ≤ day d ≤ 31.
Proof.
  unfold valid, MINYEAR, MAXYEAR. intros Hv.
  repeat (apply andb_prop in Hv as [Hv ?]).
  assert (days_in_month (year d) (month d) ≤ 31).
  { unfold days_in_month.
    repeat (match goal with |- context [match ?x with _ => _ end] =>
              destruct x end); lia. }
  lia.
Qed.

(** Parsing undoes printing on every date the calendar accepts. *)
Lemma fromisoformat_isoformat d :
  valid d = true → fromisoformat (isoformat d) = Some d.
Proof.
  intros Hv. destruct (valid_bounds d Hv) as (Hy & Hm & Hd).
  destruct d as [y m dd]; cbn [year month day] in *.
  set (a := y / 1000 mod 10). set (b := y / 100 mod 10).
  set (c := y / 10 mod 10). set (e := y mod 10).
  set (f := m / 10 mod 10). set (g := m mod 10).
  set (h := dd / 10 mod 10). set (i := dd mod 10).
  assert (y = 10 * (10 * (10 * (10 * 0 + a) + b) + c) + e) as Ey
    by (subst a b c e; Z.div_mod_to_equations; lia).
  assert (m = 10 * (10 * 0 + f) + g) as Em
    by (subst f g; Z.div_mod_to_equations; lia).
  assert (dd = 10 * (10 * 0 + h) + i) as Ed
    by (subst h i; Z.div_mod_to_equations; lia).
  assert (0 ≤ a < 10 ∧ 0 ≤ b < 10 ∧ 0 ≤ c < 10 ∧ 0 ≤ e < 10) as H1
    by (subst a b c e; split_and!; Z.div_mod_to_equations; lia).
  assert (0 ≤ f < 10 ∧ 0 ≤ g < 10 ∧ 0 ≤ h < 10 ∧ 0 ≤ i < 10) as H2
    by (subst f g h i; split_and!; Z.div_mod_to_equations; lia).
  clearbody a b c e f g h i. subst y m dd.
  rewrite isoformat_digits8, fromisoformat_digits8 by done.
  cbv zeta. by rewrite Hv.
Qed.

Lemma compare_digits8 a b c e f g h i a' b' c' e' f' g' h' i' :
  (0 ≤ a < 10 ∧ 0 ≤ b < 10 ∧ 0 ≤ c < 10 ∧ 0 ≤ e < 10) →
  (0 ≤ f < 10 ∧ 0 ≤ g < 10 ∧ 0 ≤ h < 10 ∧ 0 ≤ i < 10) →
  (0 ≤ a' < 10 ∧ 0 ≤ b' < 10 ∧ 0 ≤ c' < 10 ∧ 0 ≤ e' < 10) →
  (0 ≤ f' < 10 ∧ 0 ≤ g' < 10 ∧ 0 ≤ h' < 10 ∧ 0 ≤ i' < 10) →
  String.compare (digits8 a b c e f g h i) (digits8 a' b' c' e' f' g' h' i')
  = compare
      (mkdate (10 * (10 * (10 * (10 * 0 + a) + b) + c) + e)
              (10 * (10 * 0 + f) + g) (10 * (10 * 0 + h) + i))
      (mkdate (10 * (10 * (10 * (10 * 0 + a') + b') + c') + e')
              (10 * (10 * 0 + f') + g') (10 * (10 * 0 + h') + i')).
Proof.
  intros (?&?&?&?) (?&?&?&?) (?&?&?&?) (?&?&?&?).
  unfold compare, digits8. cbn [year month day String.string_of_list_ascii
    String.compare].
  rewrite !compare_digit_char by done.
  rewrite !compare_horner by done.
  change (Ascii.compare "-" "-") with Eq. cbn [Z.compare Z.mul].
  unfold thenc. repeat (destruct (_ ?= _); try reflexivity).
Qed.

(** On canonical texts the store's string order is the calendar order. *)
Lemma compare_isoformat d1 d2 :
  valid d1 = true → valid d2 = true →
  String.compare (isoformat d1) (isoformat d2) = compare d1 d2.
Proof.
  intros H1%fromisoformat_isoformat H2%fromisoformat_isoformat.
  apply fromisoformat_inv in H1 as (a&b&c&e&f&g&h&i&?&?&Hs1&Hd1&_).
  apply fromisoformat_inv in H2 as (a'&b'&c'&e'&f'&g'&h'&i'&?&?&Hs2&Hd2&_).
  rewrite Hs1, Hs2, Hd1, Hd2.
  by apply compare_digits8.
Qed.

Lemma leb_isoformat d1 d2 :
  valid d1 = true → valid d2 = true →
  (isoformat d1 ≤ isoformat d2)%string ↔ leb d1 d2 = true.
Proof.
  intros H1 H2. unfold String.le, String.leb, leb, gtb.
  rewrite compare_isoformat by done. by destruct (compare d1 d2).
Qed.

Lemma isoformat_nonempty d : isoformat d ≠ "".
Proof. done. Qed.

End date_facts.

(** * Facts about the store *)

Section store_facts.

Lemma Bson_compare_antisym a b :
  Bson.compare b a = CompOpp (Bson.compare a b).
Proof. destruct a, b; simpl; try done. apply String.compare_antisym. Qed.

Lemma compare_by_antisym keys a b :
  Mongo.compare_by keys b a = CompOpp (Mongo.compare_by keys a b).
Proof.
  induction keys as [|f keys IH]; simpl; [done|].
  rewrite (Bson_compare_antisym (Mongo.get f a)), IH.
  by destruct (Bson.compare _ _).
Qed.

Global Instance sort_le_total keys : Total (Mongo.sort_le keys).
Proof.
  intros a b. unfold Mongo.sort_le.
  rewrite (compare_by_antisym keys a.2 b.2).
  destruct (Mongo.compare_by keys a.2 b.2); simpl; auto.
Qed.

Lemma sort_Permutation keys docs : Mongo.sort keys docs ≡ₚ docs.
Proof. apply merge_sort_Permutation. Qed.

Lemma sort_Sorted keys docs :
  Sorted (Mongo.sort_le keys) (Mongo.sort keys docs).
Proof. apply (Sorted_merge_sort _). Qed.

(** Sorting on the one key [expiration_date] orders the serialized
    objects by that text. *)
Lemma sort_expiration_date docs :
  StronglySorted
    (λ a b, (Json.expiration_date a ≤ Json.expiration_date b)%string)
    (_serialize_announcement <$> Mongo.sort [Mongo.expiration_date] docs).
Proof.
  apply Sorted_StronglySorted.
  { intros a b c ??. by etrans. }
  eapply Sorted_fmap, sort_Sorted.
  intros [? a] [? b]. unfold Mongo.sort_le, String.le, String.leb. simpl.
  by destruct (String.compare _ _).
Qed.

Lemma find_elem_of q c oid d :
  (oid, d) ∈ Mongo.find q c ↔ c !! oid = Some d ∧ Mongo.matches q d = true.
Proof.
  unfold Mongo.find. by rewrite elem_of_map_to_list, map_lookup_filter_Some.
Qed.

Lemma find_all c : Mongo.find (Mongo.all_of []) c = map_to_list c.
Proof.
  unfold Mongo.find. f_equal. apply map_filter_id. by intros.
Qed.

Lemma str_of_ObjectId_inj a b :
  str_of_ObjectId a = str_of_ObjectId b → a = b.
Proof. destruct a, b. simpl. by intros ->. Qed.

Lemma String_le_compare s t :
  (s ≤ t)%string ↔ String.compare t s ≠ Lt.
Proof.
  unfold String.le, String.leb. rewrite (String.compare_antisym s t).
  by destruct (String.compare t s).
Qed.

(** The filter [get_announcements] builds selects the active documents. *)
Lemma active_query today d :
  Mongo.matches
    (Mongo.all_of [
       Mongo.gte Mongo.expiration_date today;
       Mongo.any_of [
         Mongo.eq Mongo.start_date Bson.Null;
         Mongo.eq Mongo.start_date (Bson.Text "");
         Mongo.lte Mongo.start_date today ] ]) d = true
  ↔ active_on today d.
Proof.
  unfold active_on. cbn [Mongo.matches forallb existsb Mongo.get Mongo.text_cmp].
  rewrite andb_true_r, andb_true_iff, bool_decide_eq_true, String_le_compare.
  apply and_iff_compat_l.
  destruct (Doc.start_date d) as [s|]; cbn.
  - rewrite orb_false_r, !orb_true_iff, !bool_decide_eq_true.
    unfold String.le, String.leb. split.
    + intros [? | [Hs | Hs]]; [done|left; by apply String.compare_eq_iff|right].
      by destruct (String.compare s today).
    + intros [-> | Hs]; right; [by left|right].
      by destruct (String.compare s today).
  - done.
Qed.

End store_facts.

(** * Facts about the handlers *)

Section handler_facts.

(** The guard never writes, and it returns exactly for an authenticated
    caller; otherwise it raises one of its two 401 responses. *)
Lemma _validate_teacher_inv teacher_username db o db' :
  _validate_teacher teacher_username db = (o, db') →
  db' = db
  ∧ match o with
    | Returned _ => authenticated teacher_username db
    | Raised e =>
        ¬ authenticated teacher_username db
        ∧ (e = Unauthenticated ∨ e = InvalidCredentials)
    end.
Proof.
  unfold _validate_teacher, authenticated.
  destruct teacher_username as [[|a u]|]; cbn.
  - intros [= <- <-]. split; [done|]. split; [|by left].
    by intros (?&[= <-]&?&_).
  - unfold bind, teachers, ret, raise.
    destruct (teachers_collection db !! String a u) as [t|] eqn:Ht;
      intros [= <- <-]; (split; [done|]).
    + exists (String a u). by rewrite Ht.
    + split; [|by right]. intros (?&[= <-]&_&[? Hs]). congruence.
  - intros [= <- <-]. split; [done|]. split; [|by left].
    by intros (?&?&_).
Qed.

Lemma _validate_teacher_pass teacher_username db :
  authenticated teacher_username db →
  ∃ teacher, _validate_teacher teacher_username db = (Returned teacher, db).
Proof.
  intros Ha. destruct (_validate_teacher teacher_username db) as [o db'] eqn:E.
  destruct (_validate_teacher_inv _ _ _ _ E) as [-> Ho].
  destruct o as [t|e]; [by exists t|]. by destruct Ho.
Qed.

(** A handler that starts with the guard fails as the guard does. *)
Lemma guarded_raise {A B} (k : A → handler B) (g : handler A) db e db' :
  g db = (Raised e, db') → bind g k db = (Raised e, db').
Proof. unfold bind. by intros ->. Qed.

Lemma guarded_pass {A B} (k : A → handler B) (g : handler A) db a db' :
  g db = (Returned a, db') → bind g k db = k a db'.
Proof. unfold bind. by intros ->. Qed.

Lemma _parse_date_or_none_Returned date_str field_name parsed :
  _parse_date_or_none date_str field_name = Returned parsed →
  Date.isoformat <$> parsed = supplied date_str
  ∧ from_option (λ d, Date.valid d = true) True parsed.
Proof.
  unfold _parse_date_or_none, supplied.
  destruct date_str as [[|a s]|]; try (by intros [= <-]).
  destruct (Date.fromisoformat _) as [d|] eqn:Hd; [|done].
  intros [= <-]. apply isoformat_fromisoformat in Hd as [Hd ?].
  split; [|done]. change (Some (Date.isoformat d) = Some (String a s)).
  by rewrite Hd.
Qed.

Lemma _parse_date_or_none_Raised date_str field_name e :
  _parse_date_or_none date_str field_name = Raised e →
  e = InvalidDateFormat field_name
  ∧ ∃ s, date_str = Some s ∧ s ≠ "" ∧ Date.fromisoformat s = None.
Proof.
  unfold _parse_date_or_none.
  destruct date_str as [[|a s]|]; try done.
  destruct (Date.fromisoformat _) eqn:Hd; [done|].
  intros [= <-]. split; [done|]. by exists (String a s).
Qed.


Lemma expiration_parsed expiration_date o :
  _parse_date_or_none (Some expiration_date) "expiration_date" = o →
  match o with
  | Returned None => expiration_date = ""
  | Returned (Some d) => Date.fromisoformat expiration_date = Some d
  | Raised _ => True
  end.
Proof.
  intros <-. unfold _parse_date_or_none.
  destruct expiration_date as [|a s]; [done|].
  by destruct (Date.fromisoformat _).
Qed.

(** Everything [create_announcement] can do: raise and leave the database
    as it found it, or insert the validated record under the new
    identifier and return it. *)
Lemma create_announcement_inv new_id message expiration_date start_date
    teacher_username db o db' :
  create_announcement new_id message expiration_date start_date
    teacher_username db = (o, db') →
  (∃ e, o = Raised e ∧ db' = db)
  ∨ ∃ parsed_start parsed_expiration,
      authenticated teacher_username db
      ∧ Str.strip message ≠ ""
      ∧ _parse_date_or_none start_date "start_date" = Returned parsed_start
      ∧ Date.fromisoformat expiration_date = Some parsed_expiration
      ∧ starts_after parsed_start parsed_expiration = false
      ∧ announcements_collection db !! new_id = None
      ∧ let doc :=
          Doc.mk (Str.strip message) (supplied start_date) expiration_date in
        db' = mkDatabase (<[new_id := doc]> (announcements_collection db))
                (teachers_collection db)
        ∧ o = Returned (_serialize_announcement (new_id, doc)).
Proof.
  unfold create_announcement, bind at 1.
  destruct (_validate_teacher teacher_username db) as [g db1] eqn:Hg.
  apply _validate_teacher_inv in Hg as [-> Hg].
  destruct g as [teacher|e]; [|intros [= <- <-]; left; eauto].
  case_bool_decide as Hm; [intros [= <- <-]; left; eauto|].
  unfold bind at 1, pure at 1.
  destruct (_parse_date_or_none start_date _) as [parsed_start|e] eqn:Hs;
    [|intros [= <- <-]; left; eauto].
  unfold bind at 1, pure at 1.
  destruct (_parse_date_or_none (Some expiration_date) _)
    as [[parsed_expiration|]|e] eqn:He;
    [|intros [= <- <-]; left; eauto..].
  apply expiration_parsed in He.
  destruct (starts_after _ _) eqn:Hr; [intros [= <- <-]; left; eauto|].
  pose proof (_parse_date_or_none_Returned _ _ _ Hs) as [Hstored _].
  pose proof (isoformat_fromisoformat _ _ He) as [Hexp _].
  rewrite Hstored, Hexp.
  unfold bind, announcements_write, announcements, Mongo.insert_one.
  destruct db as [c ts]; cbn [announcements_collection teachers_collection].
  destruct (c !! new_id) eqn:Hc; [intros [= <- <-]; left; eauto|].
  cbn [announcements_collection]. unfold Mongo.find_one.
  rewrite lookup_insert_eq. intros [= <- <-]. right.
  exists parsed_start, parsed_expiration. by split_and!.
Qed.

(** Everything [update_announcement] can do: raise and leave the database
    as it found it, or replace the fields of the one record the
    identifier names and return it. *)
Lemma update_announcement_inv announcement_id message expiration_date
    start_date teacher_username db o db' :
  update_announcement announcement_id message expiration_date start_date
    teacher_username db = (o, db') →
  (∃ e, o = Raised e ∧ db' = db)
  ∨ ∃ object_id parsed_start parsed_expiration,
      authenticated teacher_username db
      ∧ Str.strip message ≠ ""
      ∧ _parse_date_or_none start_date "start_date" = Returned parsed_start
      ∧ Date.fromisoformat expiration_date = Some parsed_expiration
      ∧ starts_after parsed_start parsed_expiration = false
      ∧ ObjectId_of_str announcement_id = Some object_id
      ∧ is_Some (announcements_collection db !! object_id)
      ∧ let doc :=
          Doc.mk (Str.strip message) (supplied start_date) expiration_date in
        db' = mkDatabase (<[object_id := doc]> (announcements_collection db))
                (teachers_collection db)
        ∧ o = Returned (_serialize_announcement (object_id, doc)).
Proof.
  unfold update_announcement, bind at 1.
  destruct (_validate_teacher teacher_username db) as [g db1] eqn:Hg.
  apply _validate_teacher_inv in Hg as [-> Hg].
  destruct g as [teacher|e]; [|intros [= <- <-]; left; eauto].
  case_bool_decide as Hm; [intros [= <- <-]; left; eauto|].
  unfold bind at 1, pure at 1.
  destruct (_parse_date_or_none start_date _) as [parsed_start|e] eqn:Hs;
    [|intros [= <- <-]; left; eauto].
  unfold bind at 1, pure at 1.
  destruct (_parse_date_or_none (Some expiration_date) _)
    as [[parsed_expiration|]|e] eqn:He;
    [|intros [= <- <-]; left; eauto..].
  apply expiration_parsed in He.
  destruct (starts_after _ _) eqn:Hr; [intros [= <- <-]; left; eauto|].
  destruct (ObjectId_of_str announcement_id) as [object_id|] eqn:Hid;
    [|intros [= <- <-]; left; eauto].
  pose proof (_parse_date_or_none_Returned _ _ _ Hs) as [Hstored _].
  pose proof (isoformat_fromisoformat _ _ He) as [Hexp _].
  rewrite Hstored, Hexp.
  unfold bind, announcements_write, announcements, Mongo.update_one.
  destruct db as [c ts]; cbn [announcements_collection teachers_collection].
  destruct (c !! object_id) as [old|] eqn:Hc; cbn.
  - rewrite bool_decide_eq_false_2 by done.
    cbn [announcements_collection]. unfold Mongo.find_one.
    rewrite lookup_insert_eq. intros [= <- <-].
    right. exists object_id, parsed_start, parsed_expiration.
    by split_and!.
  - intros [= <- <-]; left; eauto.
Qed.

(** Everything [delete_announcement] can do. *)
Lemma delete_announcement_inv announcement_id teacher_username db :
  let c := announcements_collection db in
  (¬ authenticated teacher_username db
   ∧ ∃ e, (e = Unauthenticated ∨ e = InvalidCredentials)
          ∧ delete_announcement announcement_id teacher_username db
            = (Raised e, db))
  ∨ authenticated teacher_username db
    ∧ match ObjectId_of_str announcement_id with
      | None =>
          delete_announcement announcement_id teacher_username db
          = (Raised InvalidIdentifier, db)
      | Some object_id =>
          match c !! object_id with
          | None =>
              delete_announcement announcement_id teacher_username db
              = (Raised NotFound, db)
          | Some _ =>
              delete_announcement announcement_id teacher_username db
              = (Returned {[ "message" := "Announcement deleted" ]},
                 mkDatabase (delete object_id c) (teachers_collection db))
          end
      end.
Proof.
  intros c.
  destruct (_validate_teacher teacher_username db) as [g db1] eqn:Hg.
  pose proof (_validate_teacher_inv _ _ _ _ Hg) as [-> Ha].
  destruct g as [teacher|e].
  - right. split; [done|]. unfold delete_announcement.
    rewrite (guarded_pass _ _ _ _ _ Hg).
    destruct (ObjectId_of_str announcement_id) as [object_id|]; [|done].
    unfold bind, announcements_write, Mongo.delete_one. subst c.
    destruct db as [c ts]; cbn [announcements_collection teachers_collection].
    by destruct (c !! object_id).
  - left. destruct Ha as [Ha He]. split; [done|]. exists e. split; [done|].
    by apply guarded_raise.
Qed.

Lemma _parse_date_or_none_parsed s field_name d :
  Date.fromisoformat s = Some d →
  _parse_date_or_none (Some s) field_name = Returned (Some d).
Proof.
  intros Hd. unfold _parse_date_or_none.
  destruct s; [done|]. by rewrite Hd.
Qed.

End handler_facts.

(** * The specification's scenario, run on the handlers *)

Section scenario.

Example fromisoformat_leap_day :
  Date.fromisoformat "2024-02-29" = Some (mkdate 2024 2 29)
  ∧ Date.fromisoformat "2025-02-29" = None
  ∧ Date.fromisoformat "2025-6-1" = None
  ∧ Date.fromisoformat "0000-01-01" = None.
Proof. by vm_compute. Qed.

Example strip_blank :
  Str.strip "   " = "" ∧ Str.strip "  Exam Friday " = "Exam Friday".
Proof. by vm_compute. Qed.

Example ObjectId_of_str_cases :
  ObjectId_of_str "not-an-id" = None
  ∧ ObjectId_of_str "665F1C2AB7E4D90A1C3E5F70" = Some Example.exam.
Proof. by vm_compute. Qed.

Example create_without_start_date :
  (create_announcement Example.trip "Exam Friday" "2025-06-01" None
     (Some Example.teacher) Example.school).1
  = Returned (Json.mk "665f1c2ab7e4d90a1c3e5f72" "Exam Friday" None
                "2025-06-01").
Proof. by vm_compute. Qed.

Example create_reversed_dates :
  create_announcement Example.trip "Exam Friday" "2025-06-01"
    (Some "2025-06-05") (Some Example.teacher) Example.school
  = (Raised InvalidDateRange, Example.school).
Proof. by vm_compute. Qed.

Example create_blank_message :
  create_announcement Example.trip "   " "2025-06-01" None
    (Some Example.teacher) Example.school
  = (Raised EmptyMessage, Example.school).
Proof. by vm_compute. Qed.

Example update_malformed_identifier :
  update_announcement "not-an-id" "Exam moved" "2025-06-08" None
    (Some Example.teacher) Example.school
  = (Raised InvalidIdentifier, Example.school).
Proof. by vm_compute. Qed.

Example delete_never_created :
  delete_announcement "665f1c2ab7e4d90a1c3e5f72" (Some Example.teacher)
    Example.school
  = (Raised NotFound, Example.school).
Proof. by vm_compute. Qed.

Example list_active_in_order :
  (get_announcements Example.today Example.school).1
  = Returned [Json.mk "665f1c2ab7e4d90a1c3e5f70" "Exam Friday" None
                "2025-06-01";
              Json.mk "665f1c2ab7e4d90a1c3e5f71" "Science fair" (Some "")
                "2025-06-20"].
Proof. by vm_compute. Qed.

Example list_active_after_all_expired :
  (get_announcements (mkdate 2025 7 1) Example.school).1 = Returned [].
Proof. by vm_compute. Qed.

End scenario.

(** * The listing of active announcements *)

Section list_active.

Lemma get_announcements_eq today db :
  get_announcements today db
  = (Returned
       (_serialize_announcement
          <$> Mongo.sort [Mongo.expiration_date]
                (map_to_list
                   (filter (λ kv, active_on (Date.isoformat today) kv.2)
                      (announcements_collection db)))),
     db).
Proof.
  unfold get_announcements, bind, announcements, ret, Mongo.find.
  do 5 f_equal. apply map_filter_ext. intros oid d _. apply active_query.
Qed.

Lemma get_announcements_Permutation today db out :
  (get_announcements today db).1 = Returned out →
  out ≡ₚ _serialize_announcement
           <$> map_to_list
                 (filter (λ kv, active_on (Date.isoformat today) kv.2)
                    (announcements_collection db)).
Proof.
  rewrite get_announcements_eq. intros [= <-]. by rewrite sort_Permutation.
Qed.

(** What the listing returns is what the store holds and is active. *)
Lemma get_announcements_elem_of today db out o :
  (get_announcements today db).1 = Returned out →
  o ∈ out ↔
  ∃ oid d, announcements_collection db !! oid = Some d
           ∧ active_on (Date.isoformat today) d
           ∧ o = _serialize_announcement (oid, d).
Proof.
  intros Hperm%get_announcements_Permutation.
  rewrite Hperm, list_elem_of_fmap. split.
  - intros ([oid d] & -> & Hin).
    apply elem_of_map_to_list, map_lookup_filter_Some in Hin as [? ?].
    by exists oid, d.
  - intros (oid & d & ? & ? & ->). exists (oid, d). split; [done|].
    by apply elem_of_map_to_list, map_lookup_filter_Some.
Qed.

(** In calendar terms: an object the listing returns whose dates are ISO
    texts has not expired before today and has not started after it. *)
Lemma get_announcements_within_window today db out o :
  Date.valid today = true →
  (get_announcements today db).1 = Returned out → o ∈ out →
  (∀ e, Date.valid e = true → Json.expiration_date o = Date.isoformat e →
        Date.leb today e = true)
  ∧ (∀ s, Date.valid s = true → Json.start_date o = Some (Date.isoformat s) →
          Date.leb s today = true).
Proof.
  intros Ht Hout Ho.
  apply (get_announcements_elem_of _ _ _ _ Hout) in Ho
    as (oid & d & _ & [Hexp Hstart] & ->).
  cbn [_serialize_announcement Json.expiration_date Json.start_date snd].
  split.
  - intros e He Heq. rewrite Heq in Hexp. by apply leb_isoformat in Hexp.
  - intros s Hs Heq. rewrite Heq in Hstart.
    destruct Hstart as [?%isoformat_nonempty | Hle]; [done|].
    by apply leb_isoformat in Hle.
Qed.

(** C1. Whatever the store holds and whatever the date is, listing the
    active announcements returns, without ever raising and without
    writing, exactly the records that are active on that date (each once),
    in ascending order of [expiration_date]; the list is empty when no
    record is active. *)
Theorem get_announcements_lists_active (today : date) (db : Database) :
  let now := Date.isoformat today in
  let store := announcements_collection db in
  ∃ out : list Json.t,
    get_announcements today db = (Returned out, db)
    ∧ out ≡ₚ _serialize_announcement
               <$> map_to_list (filter (λ kv, active_on now kv.2) store)
    ∧ (∀ o, o ∈ out ↔
            ∃ oid d, store !! oid = Some d ∧ active_on now d
                     ∧ o = _serialize_announcement (oid, d))
    ∧ StronglySorted by_expiration_date out
    ∧ (map_Forall (λ _ d, ¬ active_on now d) store → out = []).
Proof.
  intros now store.
  set (out := _serialize_announcement
                <$> Mongo.sort [Mongo.expiration_date]
                      (map_to_list
                         (filter (λ kv, active_on now kv.2) store))).
  assert (get_announcements today db = (Returned out, db)) as Hrun
    by apply get_announcements_eq.
  assert ((get_announcements today db).1 = Returned out) as Hout
    by (by rewrite Hrun).
  exists out. split_and!.
  - done.
  - by apply get_announcements_Permutation.
  - intros o. by apply get_announcements_elem_of.
  - apply sort_expiration_date.
  - intros Hnone. apply Permutation_nil_r.
    etrans; [by apply get_announcements_Permutation|]. fold now store.
    rewrite (map_empty_filter_2 (λ kv, active_on now kv.2) store).
    + by rewrite map_to_list_empty.
    + intros oid d Hd. by apply Hnone in Hd.
Qed.

(** On a record in the form the writing handlers store, with dates the
    calendar accepts, the string test is the calendar test: the window
    from the start date (if any) to the expiration date contains today. *)
Lemma active_on_calendar today message start expiration :
  Date.valid today = true → Date.valid expiration = true →
  from_option (λ d, Date.valid d = true) True start →
  active_on (Date.isoformat today)
    (Doc.mk message (Date.isoformat <$> start) (Date.isoformat expiration))
  ↔ Date.leb today expiration = true
    ∧ from_option (λ d, Date.leb d today = true) True start.
Proof.
  intros Ht He Hs. unfold active_on. cbn [Doc.expiration_date Doc.start_date].
  rewrite leb_isoformat by done. apply and_iff_compat_l.
  destruct start as [d|]; cbn [fmap option_fmap option_map from_option] in *;
    [|done].
  rewrite leb_isoformat by done. split; [|by right].
  by intros [?%isoformat_nonempty|].
Qed.

End list_active.

(** * Creating *)

Section create.



End create.

(** * Failure leaves the store alone *)

Section atomicity.

(** C3. Whenever create, update or delete raises -- whichever error it
    is -- the database after the call is the database before it. *)
Theorem failed_write_leaves_store (e : HTTPException) (db db' : Database) :
  (∀ new_id message expiration_date start_date teacher_username,
     create_announcement new_id message expiration_date start_date
       teacher_username db = (Raised e, db') → db' = db)
  ∧ (∀ announcement_id message expiration_date start_date teacher_username,
       update_announcement announcement_id message expiration_date
         start_date teacher_username db = (Raised e, db') → db' = db)
  ∧ (∀ announcement_id teacher_username,
       delete_announcement announcement_id teacher_username db
       = (Raised e, db') → db' = db).
Proof.
  split_and!.
  - intros ????? [(? & _ & ->) | (? & ? & H)]%create_announcement_inv;
      [done|]. by destruct H as (_&_&_&_&_&_&_&[=]).
  - intros ????? [(? & _ & ->) | (? & ? & ? & H)]%update_announcement_inv;
      [done|]. by destruct H as (_&_&_&_&_&_&_&_&[=]).
  - intros announcement_id teacher_username.
    destruct (delete_announcement_inv announcement_id teacher_username db)
      as [(_ & ? & _ & ->) | (_ & H)]; [by intros [= _ <-]|].
    destruct (ObjectId_of_str announcement_id) as [object_id|].
    + destruct (announcements_collection db !! object_id);
        rewrite H; [done|by intros [= _ <-]].
    + rewrite H. by intros [= _ <-].
Qed.

Lemma failed_write_leaves_store_witness :
  (update_announcement "not-an-id" "Exam moved" "2025-06-08" None
     (Some Example.teacher) Example.school).2 = Example.school.
Proof.
  apply (proj1 (proj2 (failed_write_leaves_store InvalidIdentifier
                         Example.school _))
           "not-an-id" "Exam moved" "2025-06-08" None
           (Some Example.teacher)).
  vm_compute. reflexivity.
Defined.

End atomicity.

(** * The authentication guard *)

Section guard.

(** C4. The guard raises [Unauthenticated] for a missing or empty
    identifier and [InvalidCredentials] for one the teacher directory does
    not hold, both with status 401.  List-all, create, update and delete
    fail as the guard fails.  Listing the active announcements takes no
    identifier and answers the same whatever the directory holds. *)
Theorem authentication_guard (db : Database) :
  (∀ teacher_username,
     teacher_username = None ∨ teacher_username = Some "" →
     _validate_teacher teacher_username db = (Raised Unauthenticated, db))
  ∧ (∀ u, u ≠ "" → teachers_collection db !! u = None →
          _validate_teacher (Some u) db = (Raised InvalidCredentials, db))
  ∧ status_code Unauthenticated = 401
  ∧ status_code InvalidCredentials = 401
  ∧ (∀ teacher_username e,
       _validate_teacher teacher_username db = (Raised e, db) →
       get_all_announcements teacher_username db = (Raised e, db)
       ∧ (∀ new_id message expiration_date start_date,
            create_announcement new_id message expiration_date start_date
              teacher_username db = (Raised e, db))
       ∧ (∀ announcement_id message expiration_date start_date,
            update_announcement announcement_id message expiration_date
              start_date teacher_username db = (Raised e, db))
       ∧ (∀ announcement_id,
            delete_announcement announcement_id teacher_username db
            = (Raised e, db)))
  ∧ (∀ today directory,
       let db' := mkDatabase (announcements_collection db) directory in
       ∃ out, get_announcements today db = (Returned out, db)
              ∧ get_announcements today db' = (Returned out, db')).
Proof.
  split_and!; try done.
  - by intros ? [-> | ->].
  - intros [|a u] Hu Hnone; [done|].
    unfold _validate_teacher, bind, teachers. by rewrite Hnone.
  - intros teacher_username e Hg. split_and!; intros;
      by apply guarded_raise.
  - intros today directory db'. eexists.
    split; [apply get_announcements_eq|].
    by rewrite get_announcements_eq.
Qed.

End guard.

(** * The date parser *)

Section parser.


End parser.

(** * The date-range check *)

Section date_range.

(** C6, as stated, fails: a request whose dates are in the wrong order is
    answered by an earlier check when its message is blank or its caller
    is not authenticated. *)
Lemma date_range_not_reached :
  _parse_date_or_none (Some "2025-06-05") "start_date"
  = Returned (Some (mkdate 2025 6 5))
  ∧ _parse_date_or_none (Some "2025-06-01") "expiration_date"
    = Returned (Some (mkdate 2025 6 1))
  ∧ Date.gtb (mkdate 2025 6 5) (mkdate 2025 6 1) = true
  ∧ create_announcement Example.trip "   " "2025-06-01" (Some "2025-06-05")
      (Some Example.teacher) Example.school
    = (Raised EmptyMessage, Example.school)
  ∧ update_announcement "665f1c2ab7e4d90a1c3e5f70" "   " "2025-06-01"
      (Some "2025-06-05") (Some Example.teacher) Example.school
    = (Raised EmptyMessage, Example.school)
  ∧ create_announcement Example.trip "Field trip" "2025-06-01"
      (Some "2025-06-05") None Example.school
    = (Raised Unauthenticated, Example.school)
  ∧ EmptyMessage ≠ InvalidDateRange
  ∧ Unauthenticated ≠ InvalidDateRange.
Proof. vm_compute. by split_and!. Qed.

(** C6, amended. For a caller the guard lets through and a message that
    is not blank, a create or update whose two dates parse with the start
    date strictly after the expiration date raises [InvalidDateRange], and
    the database is as before: nothing is created or modified. *)
Theorem date_range_rejected message expiration_date start_date
    teacher_username db parsed_start parsed_expiration :
  authenticated teacher_username db →
  Str.strip message ≠ "" →
  _parse_date_or_none start_date "start_date"
  = Returned (Some parsed_start) →
  _parse_date_or_none (Some expiration_date) "expiration_date"
  = Returned (Some parsed_expiration) →
  Date.gtb parsed_start parsed_expiration = true →
  (∀ new_id,
     create_announcement new_id message expiration_date start_date
       teacher_username db = (Raised InvalidDateRange, db))
  ∧ (∀ announcement_id,
       update_announcement announcement_id message expiration_date
         start_date teacher_username db = (Raised InvalidDateRange, db)).
Proof.
  intros Ha Hm Hs He Hgt.
  destruct (_validate_teacher_pass _ _ Ha) as [teacher Hg].
  split; intros;
    [unfold create_announcement|unfold update_announcement];
    rewrite (guarded_pass _ _ _ _ _ Hg);
    rewrite bool_decide_eq_false_2 by done;
    unfold bind, pure; rewrite Hs, He; cbn [starts_after];
    by rewrite Hgt.
Qed.

Lemma date_range_rejected_witness :
  (∀ new_id,
     create_announcement new_id "Field trip" "2025-06-01"
       (Some "2025-06-05") (Some Example.teacher) Example.school
     = (Raised InvalidDateRange, Example.school))
  ∧ (∀ announcement_id,
       update_announcement announcement_id "Field trip" "2025-06-01"
         (Some "2025-06-05") (Some Example.teacher) Example.school
       = (Raised InvalidDateRange, Example.school)).
Proof.
  apply (date_range_rejected "Field trip" "2025-06-01" (Some "2025-06-05")
           (Some Example.teacher) Example.school
           (mkdate 2025 6 5) (mkdate 2025 6 1)).
  - exists Example.teacher. split_and!; [reflexivity|discriminate|].
    vm_compute. eauto.
  - vm_compute. discriminate.
  - reflexivity.
  - reflexivity.
  - reflexivity.
Defined.

End date_range.

(** * Updating *)

Section update.



End update.

(** * Deleting *)

Section delete.





End delete.

(** * The stored start date *)

Section start_date.

Lemma supplied_normalized start_date parsed_start :
  _parse_date_or_none start_date "start_date" = Returned parsed_start →
  normalized_start (supplied start_date)
  ∧ supplied start_date ≠ Some ""
  ∧ (start_date = Some "" → supplied start_date = None).
Proof.
  intros H. apply _parse_date_or_none_Returned in H as [Hs Hv]. split_and!.
  - rewrite <- Hs. destruct parsed_start as [d|]; [right|by left].
    exists (Date.isoformat d). split; [done|]. by exists d.
  - by destruct start_date as [[|??]|].
  - by intros ->.
Qed.

(** C9. The record a successful create or update writes has a
    [start_date] that is null or the ISO text of a calendar date, never
    the empty string, and null when the request's start date was empty.
    The active listing nevertheless returns a stored record whose
    [start_date] is the empty string, provided it has not expired. *)
Theorem stored_start_date_normalized :
  (∀ new_id message expiration_date start_date teacher_username db out db',
     create_announcement new_id message expiration_date start_date
       teacher_username db = (Returned out, db') →
     ∃ doc, announcements_collection db' !! new_id = Some doc
            ∧ normalized_start (Doc.start_date doc)
            ∧ Doc.start_date doc ≠ Some ""
            ∧ (start_date = Some "" → Doc.start_date doc = None))
  ∧ (∀ announcement_id message expiration_date start_date teacher_username
       db out db',
       update_announcement announcement_id message expiration_date
         start_date teacher_username db = (Returned out, db') →
       ∃ object_id doc,
         ObjectId_of_str announcement_id = Some object_id
         ∧ announcements_collection db' !! object_id = Some doc
         ∧ normalized_start (Doc.start_date doc)
         ∧ Doc.start_date doc ≠ Some ""
         ∧ (start_date = Some "" → Doc.start_date doc = None))
  ∧ (∀ today db oid d,
       announcements_collection db !! oid = Some d →
       Doc.start_date d = Some "" →
       (Date.isoformat today ≤ Doc.expiration_date d)%string →
       ∃ out, get_announcements today db = (Returned out, db)
              ∧ _serialize_announcement (oid, d) ∈ out).
Proof.
  split_and!.
  - intros ???????? [(e & [=] & _) | (ps & pe & H)]%create_announcement_inv.
    destruct H as (_ & _ & Hs & _ & _ & _ & -> & _).
    eexists. split; [apply lookup_insert_eq|].
    by apply supplied_normalized in Hs.
  - intros ????????
      [(e & [=] & _) | (object_id & ps & pe & H)]%update_announcement_inv.
    destruct H as (_ & _ & Hs & _ & _ & Hid & _ & -> & _).
    exists object_id. eexists. split; [done|].
    split; [apply lookup_insert_eq|].
    by apply supplied_normalized in Hs.
  - intros today db oid d Hd Hs Hexp.
    eexists. split; [apply get_announcements_eq|].
    eapply get_announcements_elem_of; [by rewrite get_announcements_eq|].
    exists oid, d. split_and!; [done| |done].
    unfold active_on. rewrite Hs. auto.
Qed.

Lemma stored_start_date_normalized_witness :
  (∃ doc,
     announcements_collection
       (create_announcement Example.trip "Field trip" "2025-06-10" (Some "")
          (Some Example.teacher) Example.school).2 !! Example.trip
     = Some doc
     ∧ normalized_start (Doc.start_date doc)
     ∧ Doc.start_date doc ≠ Some ""
     ∧ (Some "" = Some "" → Doc.start_date doc = None))
  ∧ ∃ out, get_announcements Example.today Example.school
           = (Returned out, Example.school)
           ∧ _serialize_announcement
               (Example.fair, Doc.mk "Science fair" (Some "") "2025-06-20")
             ∈ out.
Proof.
  split.
  - apply (proj1 stored_start_date_normalized Example.trip "Field trip"
             "2025-06-10" (Some "") (Some Example.teacher) Example.school
             (Json.mk "665f1c2ab7e4d90a1c3e5f72" "Field trip" None
                "2025-06-10")).
    vm_compute. reflexivity.
  - apply (proj2 (proj2 stored_start_date_normalized)
             Example.today Example.school Example.fair
             (Doc.mk "Science fair" (Some "") "2025-06-20")).
    + vm_compute. reflexivity.
    + reflexivity.
    + vm_compute. exact I.
Defined.

End start_date.

(** * The order of the checks in update *)

Section update_order.

(** C10, as stated, fails: with a blank message and a malformed
    identifier, an unauthenticated update is answered by the guard. *)
Lemma update_blank_unauthenticated :
  Str.strip "   " = ""
  ∧ ObjectId_of_str "not-an-id" = None
  ∧ update_announcement "not-an-id" "   " "2025-06-01" None None
      Example.school
    = (Raised Unauthenticated, Example.school)
  ∧ Unauthenticated ≠ EmptyMessage.
Proof. vm_compute. by split_and!. Qed.

(** The identifier error is the last of the 400s: when update raises it,
    the message and both dates have passed their checks. *)
Lemma invalid_identifier_after_fields announcement_id message
    expiration_date start_date teacher_username db db' :
  update_announcement announcement_id message expiration_date start_date
    teacher_username db = (Raised InvalidIdentifier, db') →
  Str.strip message ≠ ""
  ∧ ∃ parsed_start parsed_expiration,
      _parse_date_or_none start_date "start_date" = Returned parsed_start
      ∧ _parse_date_or_none (Some expiration_date) "expiration_date"
        = Returned (Some parsed_expiration)
      ∧ starts_after parsed_start parsed_expiration = false.
Proof.
  unfold update_announcement, bind at 1.
  destruct (_validate_teacher teacher_username db) as [g db1] eqn:Hg.
  apply _validate_teacher_inv in Hg as [-> Hg].
  destruct g as [teacher|e]; [|by destruct Hg as [_ [-> | ->]]].
  case_bool_decide as Hm; [done|]. unfold bind, pure.
  destruct (_parse_date_or_none start_date _) as [ps|] eqn:Hs.
  2:{ apply _parse_date_or_none_Raised in Hs as [-> _]. done. }
  destruct (_parse_date_or_none (Some expiration_date) _)
    as [[pe|]|] eqn:He; [|done|].
  2:{ apply _parse_date_or_none_Raised in He as [-> _]. done. }
  destruct (starts_after ps pe) eqn:Hr; [done|]. intros _.
  split; [done|]. by exists ps, pe.
Qed.

(** C10, amended. For a caller the guard lets through, an update whose
    trimmed message is empty and whose identifier is malformed raises
    [EmptyMessage] (status 400), not [InvalidIdentifier]: the message is
    checked before the identifier is parsed. *)
Theorem update_checks_message_first announcement_id message expiration_date
    start_date teacher_username db :
  authenticated teacher_username db →
  Str.strip message = "" →
  ObjectId_of_str announcement_id = None →
  update_announcement announcement_id message expiration_date start_date
    teacher_username db = (Raised EmptyMessage, db)
  ∧ status_code EmptyMessage = 400
  ∧ EmptyMessage ≠ InvalidIdentifier.
Proof.
  intros Ha Hm Hid. destruct (_validate_teacher_pass _ _ Ha) as [teacher Hg].
  unfold update_announcement. rewrite (guarded_pass _ _ _ _ _ Hg).
  by rewrite bool_decide_eq_true_2.
Qed.

Lemma update_checks_message_first_witness :
  update_announcement "not-an-id" "   " "2025-06-01" None
    (Some Example.teacher) Example.school
  = (Raised EmptyMessage, Example.school)
  ∧ status_code EmptyMessage = 400
  ∧ EmptyMessage ≠ InvalidIdentifier.
Proof.
  apply (update_checks_message_first "not-an-id" "   " "2025-06-01" None
           (Some Example.teacher) Example.school).
  - exists Example.teacher. split_and!; [reflexivity|discriminate|].
    vm_compute. eauto.
  - reflexivity.
  - reflexivity.
Defined.

End update_order.


(** * Trimming *)

Section strip_facts.

Import Str.

Lemma String_append_cons c s t : String c s +:+ t = String c (s +:+ t).
Proof. reflexivity. Qed.

Lemma String_append_snoc s c t : (s +:+ String c "") +:+ t = s +:+ String c t.
Proof.
  induction s as [|a s IH]; [done|]. by rewrite !String_append_cons, IH.
Qed.

Lemma String_rev_app_append s t : String.rev_app s t = String.rev s +:+ t.
Proof.
  unfold String.rev. revert t.
  induction s as [|c s IH]; intros t; [done|]. cbn.
  by rewrite (IH (String c t)), (IH (String c "")), String_append_snoc.
Qed.

Lemma String_rev_cons c s : String.rev (String c s) = String.rev s +:+ String c "".
Proof. unfold String.rev at 1. cbn. apply String_rev_app_append. Qed.

Lemma String_rev_snoc s c : String.rev (s +:+ String c "") = String c (String.rev s).
Proof.
  induction s as [|a s IH]; [done|].
  by rewrite String_append_cons, !String_rev_cons, IH.
Qed.

Lemma String_rev_involutive s : String.rev (String.rev s) = s.
Proof.
  induction s as [|c s IH]; [done|]. by rewrite String_rev_cons, String_rev_snoc, IH.
Qed.

Lemma lstrip_no_lead s : no_lead (lstrip s).
Proof.
  induction s as [|c s IH]; [done|]. cbn.
  by destruct (isspace c) eqn:Hc.
Qed.

Lemma lstrip_fixed s : no_lead s → lstrip s = s.
Proof. destruct s as [|c s]; [done|]. cbn. by intros ->. Qed.

Lemma lstrip_snoc s c :
  isspace c = false → lstrip (s +:+ String c "") = lstrip s +:+ String c "".
Proof.
  intros Hc. induction s as [|a s IH].
  - change (lstrip (String c "") = String c ""). cbn. by rewrite Hc.
  - rewrite String_append_cons. cbn. by destruct (isspace a).
Qed.

Lemma rstrip_no_lead s : no_lead s → no_lead (rstrip s).
Proof.
  destruct s as [|c s]; [done|]. intros Hc. cbn in Hc. unfold rstrip.
  by rewrite String_rev_cons, lstrip_snoc, String_rev_snoc.
Qed.

(** Trimming a trimmed text changes nothing. *)
Lemma strip_idemp s : strip (strip s) = strip s.
Proof.
  unfold strip.
  rewrite (lstrip_fixed (rstrip (lstrip s)))
    by apply rstrip_no_lead, lstrip_no_lead.
  unfold rstrip. by rewrite String_rev_involutive, lstrip_fixed by apply lstrip_no_lead.
Qed.

End strip_facts.
(** * The management listing *)

Section list_all.

Lemma String_compare_refl s : String.compare s s = Eq.
Proof.
  induction s as [|a s IH]; [done|]. cbn.
  unfold Ascii.compare. by rewrite N.compare_refl.
Qed.

Lemma String_compare_Lt s t :
  String.compare s t = Lt → (s ≤ t)%string ∧ s ≠ t.
Proof.
  intros H. split.
  - unfold String.le, String.leb. by rewrite H.
  - intros ->. by rewrite String_compare_refl in H.
Qed.

Global Instance start_le_trans : Transitive start_le.
Proof.
  intros [a|] [b|] [c|]; cbn; try done. apply transitivity.
Qed.

Global Instance by_expiration_then_start_trans :
  Transitive by_expiration_then_start.
Proof.
  intros a b c [Hab Hab'] [Hbc Hbc']. split; [by etrans|].
  intros Hac. rewrite Hac in Hab.
  assert (Json.expiration_date b = Json.expiration_date c) as Hb
    by (by apply (anti_symm String.le)).
  etrans; [apply Hab'; congruence|by apply Hbc'].
Qed.

Lemma sort_expiration_then_start docs :
  StronglySorted by_expiration_then_start
    (_serialize_announcement
       <$> Mongo.sort [Mongo.expiration_date; Mongo.start_date] docs).
Proof.
  apply Sorted_StronglySorted; [apply _|].
  eapply Sorted_fmap, sort_Sorted.
  intros [? [ma sa ea]] [? [mb sb eb]].
  unfold Mongo.sort_le, by_expiration_then_start. cbn.
  destruct (String.compare ea eb) eqn:He; cbn; [| |done].
  - apply String.compare_eq_iff in He as ->. intros Hs. split; [done|].
    intros _. destruct sa as [sa|], sb as [sb|]; cbn in *; try done.
    unfold String.le, String.leb. by destruct (String.compare sa sb).
  - intros _. by apply String_compare_Lt in He as [? ?].
Qed.

Lemma get_all_announcements_eq teacher_username db :
  authenticated teacher_username db →
  get_all_announcements teacher_username db
  = (Returned
       (_serialize_announcement
          <$> Mongo.sort [Mongo.expiration_date; Mongo.start_date]
                (map_to_list (announcements_collection db))),
     db).
Proof.
  intros Ha. destruct (_validate_teacher_pass _ _ Ha) as [teacher Hg].
  unfold get_all_announcements. rewrite (guarded_pass _ _ _ _ _ Hg).
  unfold bind, announcements, ret. by rewrite find_all.
Qed.

(** X1. For a caller the guard lets through, the management listing returns
    every record of the store, each once, whether active or not, ordered by
    [expiration_date] and then by [start_date] with null first; it does not
    write. *)
Theorem get_all_announcements_lists_all teacher_username db :
  authenticated teacher_username db →
  ∃ out,
    get_all_announcements teacher_username db = (Returned out, db)
    ∧ out ≡ₚ _serialize_announcement
               <$> map_to_list (announcements_collection db)
    ∧ StronglySorted by_expiration_then_start out.
Proof.
  intros Ha. eexists. split; [by apply get_all_announcements_eq|]. split.
  - by rewrite sort_Permutation.
  - apply sort_expiration_then_start.
Qed.

Lemma get_all_announcements_lists_all_witness :
  ∃ out,
    get_all_announcements (Some Example.teacher) Example.school
    = (Returned out, Example.school)
    ∧ out ≡ₚ _serialize_announcement
               <$> map_to_list (announcements_collection Example.school)
    ∧ StronglySorted by_expiration_then_start out.
Proof.
  apply (get_all_announcements_lists_all (Some Example.teacher)
           Example.school).
  exists Example.teacher. split_and!; [reflexivity|discriminate|].
  vm_compute. eauto.
Defined.

Lemma serialized_ids_NoDup (c : gmap ObjectId Doc.t) :
  NoDup (Json.id <$> (_serialize_announcement <$> map_to_list c)).
Proof.
  rewrite <- list_fmap_compose.
  apply (NoDup_fmap_2_strong _).
  - intros [k1 d1] [k2 d2] H1%elem_of_map_to_list H2%elem_of_map_to_list Heq.
    cbn in Heq. apply str_of_ObjectId_inj in Heq as ->.
    by rewrite H1 in H2; injection H2 as ->.
  - apply NoDup_map_to_list.
Qed.

(** X2. Neither listing returns two objects with the same [id]. *)
Theorem listing_ids_distinct db :
  (∀ today out,
     (get_announcements today db).1 = Returned out → NoDup (Json.id <$> out))
  ∧ (∀ teacher_username out,
       (get_all_announcements teacher_username db).1 = Returned out →
       NoDup (Json.id <$> out)).
Proof.
  split.
  - intros today out Hperm%get_announcements_Permutation.
    rewrite Hperm. apply serialized_ids_NoDup.
  - intros teacher_username out.
    unfold get_all_announcements, bind at 1.
    destruct (_validate_teacher teacher_username db) as [g db1] eqn:Hg.
    apply _validate_teacher_inv in Hg as [-> _].
    destruct g as [teacher|e]; [|done].
    unfold bind, announcements, ret. cbn. intros [= <-].
    rewrite sort_Permutation, find_all. apply serialized_ids_NoDup.
Qed.

(** X3. Everything the public listing returns, the management listing
    returns to an authenticated caller on the same store. *)
Theorem active_listing_within_all today teacher_username db active all o :
  (get_announcements today db).1 = Returned active →
  (get_all_announcements teacher_username db).1 = Returned all →
  o ∈ active → o ∈ all.
Proof.
  intros Hactive Hall Ho.
  apply (get_announcements_elem_of _ _ _ _ Hactive) in Ho
    as (oid & d & Hd & _ & ->).
  revert Hall. unfold get_all_announcements, bind at 1.
  destruct (_validate_teacher teacher_username db) as [g db1] eqn:Hg.
  apply _validate_teacher_inv in Hg as [-> _].
  destruct g as [teacher|e]; [|done].
  unfold bind, announcements, ret. cbn. intros [= <-].
  rewrite sort_Permutation, find_all. apply list_elem_of_fmap.
  exists (oid, d). split; [done|]. by apply elem_of_map_to_list.
Qed.

Lemma active_listing_within_all_witness :
  Json.mk "665f1c2ab7e4d90a1c3e5f71" "Science fair" (Some "") "2025-06-20"
  ∈ [Json.mk "665f1c2ab7e4d90a1c3e5f70" "Exam Friday" None "2025-06-01";
     Json.mk "665f1c2ab7e4d90a1c3e5f71" "Science fair" (Some "")
       "2025-06-20"].
Proof.
  apply (active_listing_within_all (mkdate 2025 6 10) (Some Example.teacher)
           Example.school
           [Json.mk "665f1c2ab7e4d90a1c3e5f71" "Science fair" (Some "")
              "2025-06-20"]).
  - vm_compute. reflexivity.
  - vm_compute. reflexivity.
  - constructor.
Defined.

End list_all.

(** * What the writing handlers accept *)

Section writes.

Lemma supplied_cases start_date :
  (supplied start_date = None
   ∧ (start_date = None ∨ start_date = Some ""))
  ∨ ∃ s, start_date = Some s ∧ s ≠ "" ∧ supplied start_date = Some s.
Proof.
  destruct start_date as [[|a s]|]; cbn; [left|right|left]; eauto.
Qed.

(** Accepted fields are the ones that pass the handlers' four checks. *)
Lemma acceptable_checks message expiration_date start_date :
  acceptable message expiration_date start_date
  ↔ Str.strip message ≠ ""
    ∧ ∃ parsed_start parsed_expiration,
        _parse_date_or_none start_date "start_date" = Returned parsed_start
        ∧ Date.fromisoformat expiration_date = Some parsed_expiration
        ∧ starts_after parsed_start parsed_expiration = false.
Proof.
  unfold acceptable. apply and_iff_compat_l. split.
  - intros (e & He & -> & Hs).
    destruct (supplied_cases start_date)
      as [[Hn [-> | ->]] | (s & -> & Hne & Hsup)].
    + exists None, e. by rewrite fromisoformat_isoformat.
    + exists None, e. by rewrite fromisoformat_isoformat.
    + rewrite Hsup in Hs. destruct Hs as (b & Hb & -> & Hle).
      exists (Some b), e. split_and!.
      * by apply _parse_date_or_none_parsed, fromisoformat_isoformat.
      * by apply fromisoformat_isoformat.
      * cbn. unfold Date.leb in Hle. by destruct (Date.gtb b e).
  - intros (ps & pe & Hs & He & Hr).
    apply isoformat_fromisoformat in He as [<- Hv].
    apply _parse_date_or_none_Returned in Hs as [<- Hps].
    exists pe. split_and!; [done..|].
    destruct ps as [b|]; cbn in *; [|done].
    exists b. split_and!; [done..|]. unfold Date.leb. by rewrite Hr.
Qed.

Lemma create_announcement_ok new_id message expiration_date start_date
    teacher_username db :
  authenticated teacher_username db →
  acceptable message expiration_date start_date →
  announcements_collection db !! new_id = None →
  create_announcement new_id message expiration_date start_date
    teacher_username db
  = (Returned
       (_serialize_announcement
          (new_id, record_of message expiration_date start_date)),
     mkDatabase
       (<[new_id := record_of message expiration_date start_date]>
          (announcements_collection db))
       (teachers_collection db)).
Proof.
  intros Ha (Hm & ps & pe & Hs & He & Hr)%acceptable_checks Hfresh.
  destruct (_validate_teacher_pass _ _ Ha) as [teacher Hg].
  unfold create_announcement. rewrite (guarded_pass _ _ _ _ _ Hg).
  rewrite bool_decide_eq_false_2 by done.
  unfold bind at 1, pure at 1. rewrite Hs.
  unfold bind at 1, pure at 1.
  rewrite (_parse_date_or_none_parsed _ _ _ He), Hr.
  apply _parse_date_or_none_Returned in Hs as [-> _].
  apply isoformat_fromisoformat in He as [-> _].
  unfold bind, announcements_write, announcements, Mongo.insert_one.
  rewrite Hfresh. cbn [announcements_collection]. unfold Mongo.find_one.
  by rewrite lookup_insert_eq.
Qed.

Lemma update_announcement_checked announcement_id message expiration_date
    start_date teacher_username db :
  authenticated teacher_username db →
  acceptable message expiration_date start_date →
  update_announcement announcement_id message expiration_date start_date
    teacher_username db
  = match ObjectId_of_str announcement_id with
    | None => (Raised InvalidIdentifier, db)
    | Some object_id =>
        match announcements_collection db !! object_id with
        | None => (Raised NotFound, db)
        | Some _ =>
            (Returned
               (_serialize_announcement
                  (object_id, record_of message expiration_date start_date)),
             mkDatabase
               (<[object_id := record_of message expiration_date start_date]>
                  (announcements_collection db))
               (teachers_collection db))
        end
    end.
Proof.
  intros Ha (Hm & ps & pe & Hs & He & Hr)%acceptable_checks.
  destruct (_validate_teacher_pass _ _ Ha) as [teacher Hg].
  unfold update_announcement. rewrite (guarded_pass _ _ _ _ _ Hg).
  rewrite bool_decide_eq_false_2 by done.
  unfold bind at 1, pure at 1. rewrite Hs.
  unfold bind at 1, pure at 1.
  rewrite (_parse_date_or_none_parsed _ _ _ He), Hr.
  apply _parse_date_or_none_Returned in Hs as [-> _].
  apply isoformat_fromisoformat in He as [-> _].
  destruct (ObjectId_of_str announcement_id) as [object_id|]; [|done].
  unfold bind, announcements_write, announcements, Mongo.update_one.
  destruct db as [c ts]; cbn [announcements_collection teachers_collection].
  destruct (c !! object_id) as [old|]; [|done].
  rewrite bool_decide_eq_false_2 by done.
  cbn [announcements_collection]. unfold Mongo.find_one.
  by rewrite lookup_insert_eq.
Qed.







End writes.

(** * The order of the field checks, and the stored invariant *)

Section validation.





(** X9. Create and update validate alike: apart from the duplicate-key
    failure of an insert and the two identifier errors of update, create
    raises an error on given fields exactly when update raises it, whatever
    the two identifiers are. *)
Theorem create_update_same_validation new_id announcement_id message
    expiration_date start_date teacher_username db e :
  e ≠ server_error → e ≠ InvalidIdentifier → e ≠ NotFound →
  create_announcement new_id message expiration_date start_date
    teacher_username db = (Raised e, db)
  ↔ update_announcement announcement_id message expiration_date start_date
      teacher_username db = (Raised e, db).
Proof.
  intros H500 Hid H404.
  destruct (_validate_teacher teacher_username db) as [g db1] eqn:Hg.
  pose proof (_validate_teacher_inv _ _ _ _ Hg) as [-> Ha].
  destruct g as [teacher|e0].
  2:{ unfold create_announcement, update_announcement.
      by rewrite !(guarded_raise _ _ _ _ _ Hg). }
  destruct (decide (Str.strip message = "")) as [Hm|Hm].
  { unfold create_announcement, update_announcement.
    rewrite !(guarded_pass _ _ _ _ _ Hg).
    by rewrite !bool_decide_eq_true_2. }
  destruct (_parse_date_or_none start_date "start_date") as [ps|e1] eqn:Hs.
  2:{ unfold create_announcement, update_announcement.
      rewrite !(guarded_pass _ _ _ _ _ Hg).
      rewrite !bool_decide_eq_false_2 by done.
      unfold bind, pure. by rewrite Hs. }
  destruct (_parse_date_or_none (Some expiration_date) "expiration_date")
    as [[pe|]|e2] eqn:He.
  2,3: unfold create_announcement, update_announcement;
    rewrite !(guarded_pass _ _ _ _ _ Hg);
    rewrite !bool_decide_eq_false_2 by done;
    unfold bind, pure; by rewrite Hs, He.
  destruct (starts_after ps pe) eqn:Hr.
  { unfold create_announcement, update_announcement.
    rewrite !(guarded_pass _ _ _ _ _ Hg).
    rewrite !bool_decide_eq_false_2 by done.
    unfold bind, pure. by rewrite Hs, He, Hr. }
  assert (acceptable message expiration_date start_date) as Hok.
  { apply acceptable_checks. split; [done|]. exists ps, pe.
    split_and!; [done| |done]. by apply expiration_parsed in He. }
  rewrite update_announcement_checked by done.
  destruct (create_announcement new_id message expiration_date start_date
              teacher_username db) as [o db'] eqn:Hrun.
  split.
  - intros [= -> ->].
    destruct (announcements_collection db !! new_id) as [old|] eqn:Hc.
    + revert Hrun. unfold create_announcement.
      rewrite (guarded_pass _ _ _ _ _ Hg).
      rewrite bool_decide_eq_false_2 by done.
      unfold bind, pure. rewrite Hs, He, Hr.
      unfold announcements_write, Mongo.insert_one. rewrite Hc.
      by intros [= <-].
    + by rewrite create_announcement_ok in Hrun.
  - destruct (ObjectId_of_str announcement_id) as [object_id|];
      [|by intros [= <-]].
    destruct (announcements_collection db !! object_id);
      [done|by intros [= <-]].
Qed.

Lemma create_update_same_validation_witness :
  create_announcement Example.trip "   " "2025-06-10" None
    (Some Example.teacher) Example.school
  = (Raised EmptyMessage, Example.school)
  ↔ update_announcement "not-an-id" "   " "2025-06-10" None
      (Some Example.teacher) Example.school
    = (Raised EmptyMessage, Example.school).
Proof.
  apply (create_update_same_validation Example.trip "not-an-id" "   "
           "2025-06-10" None (Some Example.teacher) Example.school
           EmptyMessage); discriminate.
Defined.

(** The record both writers store for accepted fields keeps the invariant. *)
Lemma record_of_well_formed message expiration_date start_date :
  acceptable message expiration_date start_date →
  well_formed (record_of message expiration_date start_date).
Proof.
  intros (Hm & e & He & -> & Hs). unfold well_formed, record_of. cbn.
  split_and!; [done|apply strip_idemp|]. by exists e.
Qed.

(** X10. The record a successful create or update writes satisfies the data
    model's invariant: a message that is not empty and is trimmed, an
    expiration date that is a calendar date in ISO form, and a start date
    that is null or a calendar date in ISO form not after the expiration
    date. *)
Theorem written_record_well_formed :
  (∀ new_id message expiration_date start_date teacher_username db out db',
     create_announcement new_id message expiration_date start_date
       teacher_username db = (Returned out, db') →
     ∃ doc, announcements_collection db' !! new_id = Some doc
            ∧ well_formed doc)
  ∧ (∀ announcement_id message expiration_date start_date teacher_username
       db out db',
       update_announcement announcement_id message expiration_date
         start_date teacher_username db = (Returned out, db') →
       ∃ object_id doc,
         ObjectId_of_str announcement_id = Some object_id
         ∧ announcements_collection db' !! object_id = Some doc
         ∧ well_formed doc).
Proof.
  split.
  - intros ???????? [(e & [=] & _) | (ps & pe & H)]%create_announcement_inv.
    destruct H as (_ & Hm & Hs & He & Hr & _ & -> & _).
    eexists. split; [apply lookup_insert_eq|].
    apply record_of_well_formed, acceptable_checks. eauto 10.
  - intros ????????
      [(e & [=] & _) | (object_id & ps & pe & H)]%update_announcement_inv.
    destruct H as (_ & Hm & Hs & He & Hr & Hid & _ & -> & _).
    exists object_id. eexists. split; [done|].
    split; [apply lookup_insert_eq|].
    apply record_of_well_formed, acceptable_checks. eauto 10.
Qed.

(** X11. A store in which every record satisfies the invariant stays so
    under create, update and delete, whether they succeed or raise. *)
Theorem well_formed_store_preserved db :
  well_formed_store db →
  (∀ new_id message expiration_date start_date teacher_username,
     well_formed_store
       (create_announcement new_id message expiration_date start_date
          teacher_username db).2)
  ∧ (∀ announcement_id message expiration_date start_date teacher_username,
       well_formed_store
         (update_announcement announcement_id message expiration_date
            start_date teacher_username db).2)
  ∧ (∀ announcement_id teacher_username,
       well_formed_store
         (delete_announcement announcement_id teacher_username db).2).
Proof.
  intros Hwf. split_and!.
  - intros new_id message expiration_date start_date teacher_username.
    destruct (create_announcement _ _ _ _ _ db) as [o db'] eqn:Hrun.
    apply create_announcement_inv in Hrun
      as [(e & _ & ->) | (ps & pe & H)]; [done|].
    destruct H as (_ & Hm & Hs & He & Hr & _ & -> & _).
    apply map_Forall_insert_2; [|done].
    apply record_of_well_formed, acceptable_checks. eauto 10.
  - intros announcement_id message expiration_date start_date
      teacher_username.
    destruct (update_announcement _ _ _ _ _ db) as [o db'] eqn:Hrun.
    apply update_announcement_inv in Hrun
      as [(e & _ & ->) | (object_id & ps & pe & H)]; [done|].
    destruct H as (_ & Hm & Hs & He & Hr & _ & _ & -> & _).
    apply map_Forall_insert_2; [|done].
    apply record_of_well_formed, acceptable_checks. eauto 10.
  - intros announcement_id teacher_username.
    destruct (delete_announcement_inv announcement_id teacher_username db)
      as [(_ & e & _ & ->) | (_ & H)]; [done|].
    destruct (ObjectId_of_str announcement_id) as [object_id|];
      [|by rewrite H].
    destruct (announcements_collection db !! object_id);
      rewrite H; [|done].
    by apply map_Forall_delete.
Qed.

Lemma well_formed_store_preserved_witness :
  (∀ new_id message expiration_date start_date teacher_username,
     well_formed_store
       (create_announcement new_id message expiration_date start_date
          teacher_username Term.store).2)
  ∧ (∀ announcement_id message expiration_date start_date teacher_username,
       well_formed_store
         (update_announcement announcement_id message expiration_date
            start_date teacher_username Term.store).2)
  ∧ (∀ announcement_id teacher_username,
       well_formed_store
         (delete_announcement announcement_id teacher_username Term.store).2).
Proof.
  apply (well_formed_store_preserved Term.store).
  unfold well_formed_store, Term.store. cbn [announcements_collection].
  repeat apply map_Forall_insert_2; [..|apply map_Forall_empty].
  - split_and!; [discriminate|reflexivity|].
    exists (mkdate 2025 6 1). split_and!; (reflexivity || exact I).
  - split_and!; [discriminate|reflexivity|].
    exists (mkdate 2025 6 10). split_and!; [reflexivity..|].
    exists (mkdate 2025 6 2). split_and!; reflexivity.
Defined.

End validation.

(** * How the operations compose *)

Section composition.

Lemma authenticated_teachers teacher_username db db' :
  teachers_collection db' = teachers_collection db →
  authenticated teacher_username db → authenticated teacher_username db'.
Proof. unfold authenticated. by intros ->. Qed.

(** The guard and the field checks either stop both writers with the same
    error, or let the request through as acceptable. *)
Lemma fields_checked message expiration_date start_date teacher_username db :
  (∃ e, e ∈ validation_errors
        ∧ writers_raise e message expiration_date start_date
            teacher_username db)
  ∨ (authenticated teacher_username db
     ∧ acceptable message expiration_date start_date).
Proof.
  unfold writers_raise, validation_errors.
  destruct (_validate_teacher teacher_username db) as [g db1] eqn:Hg.
  pose proof (_validate_teacher_inv _ _ _ _ Hg) as [-> Ha].
  destruct g as [teacher|e0].
  2:{ left. exists e0. split; [destruct Ha as [_ [-> | ->]]; set_solver|].
      unfold create_announcement, update_announcement.
      split; intros; by apply guarded_raise. }
  destruct (decide (Str.strip message = "")) as [Hm|Hm].
  { left. exists EmptyMessage. split; [set_solver|].
    unfold create_announcement, update_announcement.
    split; intros; rewrite (guarded_pass _ _ _ _ _ Hg);
      by rewrite bool_decide_eq_true_2. }
  destruct (_parse_date_or_none start_date "start_date") as [ps|e1] eqn:Hs.
  2:{ left. exists e1. split.
      { apply _parse_date_or_none_Raised in Hs as [-> _]. set_solver. }
      unfold create_announcement, update_announcement.
      split; intros; rewrite (guarded_pass _ _ _ _ _ Hg);
        rewrite bool_decide_eq_false_2 by done;
        unfold bind, pure; by rewrite Hs. }
  destruct (_parse_date_or_none (Some expiration_date) "expiration_date")
    as [[pe|]|e2] eqn:He.
  2:{ left. exists MissingExpiration. split; [set_solver|].
      unfold create_announcement, update_announcement.
      split; intros; rewrite (guarded_pass _ _ _ _ _ Hg);
        rewrite bool_decide_eq_false_2 by done;
        unfold bind, pure; by rewrite Hs, He. }
  2:{ left. exists e2. split.
      { apply _parse_date_or_none_Raised in He as [-> _]. set_solver. }
      unfold create_announcement, update_announcement.
      split; intros; rewrite (guarded_pass _ _ _ _ _ Hg);
        rewrite bool_decide_eq_false_2 by done;
        unfold bind, pure; by rewrite Hs, He. }
  destruct (starts_after ps pe) eqn:Hr.
  { left. exists InvalidDateRange. split; [set_solver|].
    unfold create_announcement, update_announcement.
    split; intros; rewrite (guarded_pass _ _ _ _ _ Hg);
      rewrite bool_decide_eq_false_2 by done;
      unfold bind, pure; by rewrite Hs, He, Hr. }
  right. split; [done|]. apply acceptable_checks. split; [done|].
  exists ps, pe. split_and!; [done| |done]. by apply expiration_parsed in He.
Qed.

Lemma create_announcement_duplicate new_id message expiration_date
    start_date teacher_username db :
  authenticated teacher_username db →
  acceptable message expiration_date start_date →
  is_Some (announcements_collection db !! new_id) →
  create_announcement new_id message expiration_date start_date
    teacher_username db = (Raised server_error, db).
Proof.
  intros Ha (Hm & ps & pe & Hs & He & Hr)%acceptable_checks [old Hold].
  destruct (_validate_teacher_pass _ _ Ha) as [teacher Hg].
  unfold create_announcement. rewrite (guarded_pass _ _ _ _ _ Hg).
  rewrite bool_decide_eq_false_2 by done.
  unfold bind at 1, pure at 1. rewrite Hs.
  unfold bind at 1, pure at 1.
  rewrite (_parse_date_or_none_parsed _ _ _ He), Hr.
  unfold bind, announcements_write, Mongo.insert_one. rewrite Hold.
  by destruct db.
Qed.

(** X12. No handler raises anything outside the error taxonomy, with one
    exception: update raises only the guard's and the field checks' errors,
    [InvalidIdentifier] or [NotFound] (it never fails to serialize the record
    it has just updated); so does delete, without the field errors; the
    management listing raises only the guard's errors; and create raises
    only the guard's and the field checks' errors, or a server error in the
    one case that the generated identifier is already in the store. *)
Theorem raised_errors_are_known db e db' :
  (∀ teacher_username,
     get_all_announcements teacher_username db = (Raised e, db') →
     e = Unauthenticated ∨ e = InvalidCredentials)
  ∧ (∀ new_id message expiration_date start_date teacher_username,
       create_announcement new_id message expiration_date start_date
         teacher_username db = (Raised e, db') →
       e ∈ validation_errors
       ∨ (e = server_error
          ∧ is_Some (announcements_collection db !! new_id)))
  ∧ (∀ announcement_id message expiration_date start_date teacher_username,
       update_announcement announcement_id message expiration_date
         start_date teacher_username db = (Raised e, db') →
       e ∈ validation_errors ∨ e = InvalidIdentifier ∨ e = NotFound)
  ∧ (∀ announcement_id teacher_username,
       delete_announcement announcement_id teacher_username db
       = (Raised e, db') →
       e = Unauthenticated ∨ e = InvalidCredentials
       ∨ e = InvalidIdentifier ∨ e = NotFound).
Proof.
  split_and!.
  - intros teacher_username. unfold get_all_announcements, bind at 1.
    destruct (_validate_teacher teacher_username db) as [g db1] eqn:Hg.
    apply _validate_teacher_inv in Hg as [-> Hg].
    destruct g as [teacher|e0]; [done|]. intros [= -> _]. by destruct Hg.
  - intros new_id message expiration_date start_date teacher_username Hrun.
    destruct (fields_checked message expiration_date start_date
                teacher_username db) as [(e0 & He0 & Hc & _) | [Ha Hok]].
    + rewrite Hc in Hrun. injection Hrun as <- _. by left.
    + destruct (announcements_collection db !! new_id) as [old|] eqn:Hold.
      * rewrite create_announcement_duplicate in Hrun by done.
        injection Hrun as <- _. right. eauto.
      * by rewrite create_announcement_ok in Hrun.
  - intros announcement_id message expiration_date start_date
      teacher_username Hrun.
    destruct (fields_checked message expiration_date start_date
                teacher_username db) as [(e0 & He0 & _ & Hu) | [Ha Hok]].
    + rewrite Hu in Hrun. injection Hrun as <- _. by left.
    + rewrite update_announcement_checked in Hrun by done. right.
      destruct (ObjectId_of_str announcement_id) as [object_id|];
        [|injection Hrun as <- _; by left].
      destruct (announcements_collection db !! object_id);
        [done|injection Hrun as <- _; by right].
  - intros announcement_id teacher_username Hrun.
    destruct (delete_announcement_inv announcement_id teacher_username db)
      as [(_ & e0 & He0 & Hd) | (_ & H)].
    + rewrite Hd in Hrun. injection Hrun as <- _. tauto.
    + destruct (ObjectId_of_str announcement_id) as [object_id|].
      * destruct (announcements_collection db !! object_id);
          rewrite H in Hrun; [done|]. injection Hrun as <- _. tauto.
      * rewrite H in Hrun. injection Hrun as <- _. tauto.
Qed.

(** X13. The two listings never write, and no handler ever changes the
    teacher directory. *)
Theorem reads_and_directory_untouched db :
  (∀ today, (get_announcements today db).2 = db)
  ∧ (∀ teacher_username, (get_all_announcements teacher_username db).2 = db)
  ∧ (∀ new_id message expiration_date start_date teacher_username,
       teachers_collection
         (create_announcement new_id message expiration_date start_date
            teacher_username db).2 = teachers_collection db)
  ∧ (∀ announcement_id message expiration_date start_date teacher_username,
       teachers_collection
         (update_announcement announcement_id message expiration_date
            start_date teacher_username db).2 = teachers_collection db)
  ∧ (∀ announcement_id teacher_username,
       teachers_collection
         (delete_announcement announcement_id teacher_username db).2
       = teachers_collection db).
Proof.
  split_and!.
  - intros today. by rewrite get_announcements_eq.
  - intros teacher_username. unfold get_all_announcements, bind at 1.
    destruct (_validate_teacher teacher_username db) as [g db1] eqn:Hg.
    apply _validate_teacher_inv in Hg as [-> _]. by destruct g.
  - intros new_id message expiration_date start_date teacher_username.
    destruct (create_announcement _ _ _ _ _ db) as [o db'] eqn:Hrun.
    apply create_announcement_inv in Hrun
      as [(e & _ & ->) | (ps & pe & H)]; [done|].
    by destruct H as (_ & _ & _ & _ & _ & _ & -> & _).
  - intros announcement_id message expiration_date start_date
      teacher_username.
    destruct (update_announcement _ _ _ _ _ db) as [o db'] eqn:Hrun.
    apply update_announcement_inv in Hrun
      as [(e & _ & ->) | (object_id & ps & pe & H)]; [done|].
    by destruct H as (_ & _ & _ & _ & _ & _ & _ & -> & _).
  - intros announcement_id teacher_username.
    destruct (delete_announcement_inv announcement_id teacher_username db)
      as [(_ & e & _ & ->) | (_ & H)]; [done|].
    destruct (ObjectId_of_str announcement_id) as [object_id|];
      [|by rewrite H].
    by destruct (announcements_collection db !! object_id); rewrite H.
Qed.

(** X14. Update is idempotent: repeating a successful update on the store
    it produced returns the same object and leaves that store as it is. *)
Theorem update_announcement_idempotent announcement_id message
    expiration_date start_date teacher_username db out db' :
  update_announcement announcement_id message expiration_date start_date
    teacher_username db = (Returned out, db') →
  update_announcement announcement_id message expiration_date start_date
    teacher_username db' = (Returned out, db').
Proof.
  intros [(e & [=] & _) | (object_id & ps & pe & H)]%update_announcement_inv.
  destruct H as (Ha & Hm & Hs & He & Hr & Hid & _ & -> & [= ->]).
  rewrite update_announcement_checked, Hid.
  - cbn [announcements_collection teachers_collection].
    by rewrite lookup_insert_eq, insert_insert_eq.
  - by eapply authenticated_teachers.
  - apply acceptable_checks. eauto 10.
Qed.

Lemma update_announcement_idempotent_witness :
  update_announcement "665F1C2AB7E4D90A1C3E5F70" " Exam moved " "2025-06-08"
    (Some "") (Some Example.teacher)
    (update_announcement "665F1C2AB7E4D90A1C3E5F70" " Exam moved "
       "2025-06-08" (Some "") (Some Example.teacher) Example.school).2
  = (Returned
       (Json.mk "665f1c2ab7e4d90a1c3e5f70" "Exam moved" None "2025-06-08"),
     (update_announcement "665F1C2AB7E4D90A1C3E5F70" " Exam moved "
        "2025-06-08" (Some "") (Some Example.teacher) Example.school).2).
Proof.
  apply (update_announcement_idempotent "665F1C2AB7E4D90A1C3E5F70"
           " Exam moved " "2025-06-08" (Some "") (Some Example.teacher)
           Example.school).
  vm_compute. reflexivity.
Defined.

(** X15. A deleted record is gone for the writers too: after a successful
    delete, a second delete with the same identifier raises [NotFound], and
    so does an update of it with acceptable fields. *)
Theorem delete_then_not_found announcement_id teacher_username db r db' :
  delete_announcement announcement_id teacher_username db = (Returned r, db') →
  delete_announcement announcement_id teacher_username db'
  = (Raised NotFound, db')
  ∧ ∀ message expiration_date start_date,
      acceptable message expiration_date start_date →
      update_announcement announcement_id message expiration_date start_date
        teacher_username db' = (Raised NotFound, db').
Proof.
  intros Hrun.
  destruct (delete_announcement_inv announcement_id teacher_username db)
    as [(_ & e & _ & Hd) | (Ha & H)]; [by rewrite Hd in Hrun|].
  destruct (ObjectId_of_str announcement_id) as [object_id|] eqn:Hid;
    [|by rewrite H in Hrun].
  destruct (announcements_collection db !! object_id) as [old|];
    rewrite H in Hrun; [|done]. injection Hrun as <- <-.
  set (db' := mkDatabase _ _).
  assert (authenticated teacher_username db') as Ha'
    by (by eapply authenticated_teachers).
  assert (announcements_collection db' !! object_id = None) as Hgone
    by apply lookup_delete_eq.
  split.
  - destruct (delete_announcement_inv announcement_id teacher_username db')
      as [[Hna _] | (_ & H')]; [done|]. by rewrite Hid, Hgone in H'.
  - intros message expiration_date start_date Hok.
    by rewrite update_announcement_checked, Hid, Hgone.
Qed.

Lemma delete_then_not_found_witness :
  let db' :=
    (delete_announcement "665f1c2ab7e4d90a1c3e5f70" (Some Example.teacher)
       Example.school).2 in
  delete_announcement "665f1c2ab7e4d90a1c3e5f70" (Some Example.teacher) db'
  = (Raised NotFound, db')
  ∧ ∀ message expiration_date start_date,
      acceptable message expiration_date start_date →
      update_announcement "665f1c2ab7e4d90a1c3e5f70" message expiration_date
        start_date (Some Example.teacher) db' = (Raised NotFound, db').
Proof.
  apply (delete_then_not_found "665f1c2ab7e4d90a1c3e5f70"
           (Some Example.teacher) Example.school
           {[ "message" := "Announcement deleted" ]}).
  vm_compute. reflexivity.
Defined.

End composition.

(** * Identifiers and round trips *)

Section identifiers.

Lemma lower_hexdigit c :
  Bson.is_hexdigit c = true → Bson.is_hexdigit (Bson.lower c) = true.
Proof. destruct c as [[] [] [] [] [] [] [] []]; done. Qed.

Lemma lower_lower c : Bson.lower (Bson.lower c) = Bson.lower c.
Proof. destruct c as [[] [] [] [] [] [] [] []]; reflexivity. Qed.

Lemma Str_map_length f s : String.length (Str.map f s) = String.length s.
Proof. induction s as [|c s IH]; [done|]. cbn. by rewrite IH. Qed.

Lemma all_hexdigit_lower s :
  Str.all Bson.is_hexdigit s = true →
  Str.all Bson.is_hexdigit (Str.map Bson.lower s) = true.
Proof.
  induction s as [|c s IH]; [done|]. cbn.
  intros [Hc Hs]%andb_prop. by rewrite lower_hexdigit, IH.
Qed.

Lemma map_lower_lower s :
  Str.map Bson.lower (Str.map Bson.lower s) = Str.map Bson.lower s.
Proof. induction s as [|c s IH]; [done|]. cbn. by rewrite lower_lower, IH. Qed.

(** The text of a parsed identifier parses back to it. *)
Lemma ObjectId_of_str_round_trip s oid :
  ObjectId_of_str s = Some oid →
  ObjectId_of_str (str_of_ObjectId oid) = Some oid.
Proof.
  unfold ObjectId_of_str, str_of_ObjectId.
  destruct (bool_decide (String.length s = 24%nat)) eqn:Hlen; [|done].
  destruct (Str.all Bson.is_hexdigit s) eqn:Hhex; [|done].
  intros [= <-]. cbn. apply bool_decide_eq_true in Hlen.
  rewrite Str_map_length, Hlen, all_hexdigit_lower by done. cbn.
  by rewrite map_lower_lower.
Qed.

(** X16. The [id] an update returns can be fed back: it parses to the very
    identifier of the updated record, whatever letter case the request used,
    and a delete with it removes that record and no other. *)
Theorem returned_id_feeds_back announcement_id message expiration_date
    start_date teacher_username db out db' :
  update_announcement announcement_id message expiration_date start_date
    teacher_username db = (Returned out, db') →
  ∃ object_id,
    ObjectId_of_str announcement_id = Some object_id
    ∧ ObjectId_of_str (Json.id out) = Some object_id
    ∧ delete_announcement (Json.id out) teacher_username db'
      = (Returned {[ "message" := "Announcement deleted" ]},
         mkDatabase (delete object_id (announcements_collection db))
           (teachers_collection db)).
Proof.
  intros [(e & [=] & _) | (object_id & ps & pe & H)]%update_announcement_inv.
  destruct H as (Ha & _ & _ & _ & _ & Hid & _ & -> & [= ->]).
  exists object_id. cbn [_serialize_announcement Json.id fst].
  pose proof (ObjectId_of_str_round_trip _ _ Hid) as Hback.
  split_and!; [done..|].
  set (db' := mkDatabase _ _).
  destruct (delete_announcement_inv (str_of_ObjectId object_id)
              teacher_username db') as [[Hna _] | (_ & H)].
  { destruct Hna. by eapply authenticated_teachers. }
  rewrite Hback in H. subst db'.
  cbn [announcements_collection teachers_collection] in H.
  by rewrite lookup_insert_eq, delete_insert_eq in H.
Qed.

Lemma returned_id_feeds_back_witness :
  ∃ object_id,
    ObjectId_of_str "665F1C2AB7E4D90A1C3E5F70" = Some object_id
    ∧ ObjectId_of_str
        (Json.id
           (Json.mk "665f1c2ab7e4d90a1c3e5f70" "Exam moved" None
              "2025-06-08")) = Some object_id
    ∧ delete_announcement
        (Json.id
           (Json.mk "665f1c2ab7e4d90a1c3e5f70" "Exam moved" None
              "2025-06-08"))
        (Some Example.teacher)
        (update_announcement "665F1C2AB7E4D90A1C3E5F70" " Exam moved "
           "2025-06-08" (Some "") (Some Example.teacher) Example.school).2
      = (Returned {[ "message" := "Announcement deleted" ]},
         mkDatabase
           (delete object_id (announcements_collection Example.school))
           (teachers_collection Example.school)).
Proof.
  apply (returned_id_feeds_back "665F1C2AB7E4D90A1C3E5F70" " Exam moved "
           "2025-06-08" (Some "") (Some Example.teacher) Example.school).
  vm_compute. reflexivity.
Defined.

(** X17. Create followed by delete is a round trip: when the generated
    identifier is one its own text parses back to, deleting the created
    announcement by the [id] create returned gives back the database as it
    was before the create. *)
Theorem create_then_delete_restores new_id message expiration_date
    start_date teacher_username db out db' :
  ObjectId_of_str (str_of_ObjectId new_id) = Some new_id →
  create_announcement new_id message expiration_date start_date
    teacher_username db = (Returned out, db') →
  delete_announcement (Json.id out) teacher_username db'
  = (Returned {[ "message" := "Announcement deleted" ]}, db).
Proof.
  intros Hback
    [(e & [=] & _) | (ps & pe & H)]%create_announcement_inv.
  destruct H as (Ha & _ & _ & _ & _ & Hfresh & -> & [= ->]).
  cbn [_serialize_announcement Json.id fst].
  set (db' := mkDatabase _ _).
  destruct (delete_announcement_inv (str_of_ObjectId new_id)
              teacher_username db') as [[Hna _] | (_ & H)].
  { destruct Hna. by eapply authenticated_teachers. }
  rewrite Hback in H. subst db'.
  cbn [announcements_collection teachers_collection] in H.
  rewrite lookup_insert_eq, delete_insert_id in H by done.
  by destruct db.
Qed.

Lemma create_then_delete_restores_witness :
  delete_announcement
    (Json.id
       (Json.mk "665f1c2ab7e4d90a1c3e5f72" "Field trip" None "2025-06-10"))
    (Some Example.teacher)
    (create_announcement Example.trip " Field trip " "2025-06-10" (Some "")
       (Some Example.teacher) Example.school).2
  = (Returned {[ "message" := "Announcement deleted" ]}, Example.school).
Proof.
  apply (create_then_delete_restores Example.trip " Field trip "
           "2025-06-10" (Some "") (Some Example.teacher) Example.school).
  - reflexivity.
  - vm_compute. reflexivity.
Defined.

(** What the management listing holds is what the store holds. *)
Lemma get_all_announcements_elem_of teacher_username db o :
  authenticated teacher_username db →
  ∃ all,
    get_all_announcements teacher_username db = (Returned all, db)
    ∧ (o ∈ all ↔
       ∃ oid d, announcements_collection db !! oid = Some d
                ∧ o = _serialize_announcement (oid, d)).
Proof.
  intros Ha. eexists. split; [by apply get_all_announcements_eq|].
  rewrite sort_Permutation, list_elem_of_fmap. split.
  - intros ([oid d] & -> & Hin%elem_of_map_to_list). by exists oid, d.
  - intros (oid & d & Hd & ->). exists (oid, d).
    split; [done|]. by apply elem_of_map_to_list.
Qed.

Lemma listed_after_write teacher_username db key doc :
  authenticated teacher_username db →
  let db' :=
    mkDatabase (<[key := doc]> (announcements_collection db))
      (teachers_collection db) in
  ∃ all,
    get_all_announcements teacher_username db' = (Returned all, db')
    ∧ _serialize_announcement (key, doc) ∈ all
    ∧ ∀ o, o ∈ all → Json.id o = str_of_ObjectId key →
           o = _serialize_announcement (key, doc).
Proof.
  intros Ha db'.
  assert (authenticated teacher_username db') as Ha'
    by (by eapply authenticated_teachers).
  assert (∀ o, ∃ all,
            get_all_announcements teacher_username db' = (Returned all, db')
            ∧ (o ∈ all ↔
               ∃ oid d, announcements_collection db' !! oid = Some d
                        ∧ o = _serialize_announcement (oid, d))) as Hall
    by (intros o; by apply get_all_announcements_elem_of).
  destruct (Hall (_serialize_announcement (key, doc))) as (all & Hrun & Hin).
  exists all. split_and!; [done| |].
  - apply Hin. exists key, doc. split; [apply lookup_insert_eq|done].
  - intros o Ho Hkey. destruct (Hall o) as (all' & Hrun' & Hin').
    rewrite Hrun in Hrun'. injection Hrun' as <-.
    apply Hin' in Ho as (oid & d & Hd & ->). cbn in Hkey.
    apply str_of_ObjectId_inj in Hkey as ->. cbn in Hd.
    rewrite lookup_insert_eq in Hd. by injection Hd as ->.
Qed.

(** X18. A write shows in the management listing: after a successful create
    or update, the listing the same caller asks for contains the returned
    object, and it is the only object listed under that [id]. *)
Theorem written_record_is_listed :
  (∀ new_id message expiration_date start_date teacher_username db out db',
     create_announcement new_id message expiration_date start_date
       teacher_username db = (Returned out, db') →
     ∃ all,
       get_all_announcements teacher_username db' = (Returned all, db')
       ∧ out ∈ all
       ∧ ∀ o, o ∈ all → Json.id o = Json.id out → o = out)
  ∧ (∀ announcement_id message expiration_date start_date teacher_username
       db out db',
       update_announcement announcement_id message expiration_date
         start_date teacher_username db = (Returned out, db') →
       ∃ all,
         get_all_announcements teacher_username db' = (Returned all, db')
         ∧ out ∈ all
         ∧ ∀ o, o ∈ all → Json.id o = Json.id out → o = out).
Proof.
  split.
  - intros ???????? [(e & [=] & _) | (ps & pe & H)]%create_announcement_inv.
    destruct H as (Ha & _ & _ & _ & _ & _ & -> & [= ->]).
    by apply listed_after_write.
  - intros ????????
      [(e & [=] & _) | (object_id & ps & pe & H)]%update_announcement_inv.
    destruct H as (Ha & _ & _ & _ & _ & _ & _ & -> & [= ->]).
    by apply listed_after_write.
Qed.

Lemma written_record_is_listed_witness :
  ∃ all,
    get_all_announcements (Some Example.teacher)
      (create_announcement Example.trip " Field trip " "2025-06-10" (Some "")
         (Some Example.teacher) Example.school).2
    = (Returned all,
       (create_announcement Example.trip " Field trip " "2025-06-10"
          (Some "") (Some Example.teacher) Example.school).2)
    ∧ Json.mk "665f1c2ab7e4d90a1c3e5f72" "Field trip" None "2025-06-10" ∈ all
    ∧ ∀ o, o ∈ all →
           Json.id o
           = Json.id (Json.mk "665f1c2ab7e4d90a1c3e5f72" "Field trip" None
                        "2025-06-10") →
           o = Json.mk "665f1c2ab7e4d90a1c3e5f72" "Field trip" None
                 "2025-06-10".
Proof.
  apply (proj1 written_record_is_listed Example.trip " Field trip "
           "2025-06-10" (Some "") (Some Example.teacher) Example.school).
  vm_compute. reflexivity.
Defined.

End identifiers.

(** * The calendar reading of the listings *)

Section calendar.

Lemma _serialize_announcement_inj a b :
  _serialize_announcement a = _serialize_announcement b → a = b.
Proof.
  destruct a as [ka [ma sa ea]], b as [kb [mb sb eb]]. cbn.
  intros [= Hk%str_of_ObjectId_inj -> -> ->]. by rewrite Hk.
Qed.

(** A stored record with ISO dates is listed exactly when today is in its
    window. *)
Lemma listed_iff_in_window today db out oid message start expiration :
  Date.valid today = true →
  Date.valid expiration = true →
  from_option (λ b, Date.valid b = true) True start →
  (get_announcements today db).1 = Returned out →
  announcements_collection db !! oid
  = Some (Doc.mk message (Date.isoformat <$> start)
            (Date.isoformat expiration)) →
  _serialize_announcement
    (oid, Doc.mk message (Date.isoformat <$> start)
            (Date.isoformat expiration)) ∈ out
  ↔ in_window today start expiration.
Proof.
  intros Ht He Hs Hout Hd.
  rewrite (get_announcements_elem_of _ _ _ _ Hout).
  assert (active_on (Date.isoformat today)
            (Doc.mk message (Date.isoformat <$> start)
               (Date.isoformat expiration))
          ↔ in_window today start expiration) as Hcal.
  { rewrite active_on_calendar by done. unfold in_window.
    by destruct start. }
  split.
  - intros (oid' & d' & _ & Hact & Heq).
    apply _serialize_announcement_inj in Heq. injection Heq as <- <-.
    by apply Hcal.
  - intros Hw%Hcal. eauto.
Qed.

(** X19. On a record whose dates are stored as ISO texts, the public
    listing decides by the calendar, both ends included: with a valid
    current date, the record is returned exactly when today is not after
    its expiration date and not before its start date, if it has one. *)
Theorem get_announcements_by_calendar today db out oid message start
    expiration :
  Date.valid today = true →
  Date.valid expiration = true →
  from_option (λ b, Date.valid b = true) True start →
  (get_announcements today db).1 = Returned out →
  announcements_collection db !! oid
  = Some (Doc.mk message (Date.isoformat <$> start)
            (Date.isoformat expiration)) →
  _serialize_announcement
    (oid, Doc.mk message (Date.isoformat <$> start)
            (Date.isoformat expiration)) ∈ out
  ↔ in_window today start expiration.
Proof. apply listed_iff_in_window. Qed.

Lemma get_announcements_by_calendar_witness :
  _serialize_announcement
    (Example.trip,
     Doc.mk "Field trip" (Date.isoformat <$> Some (mkdate 2025 6 2))
       (Date.isoformat (mkdate 2025 6 10)))
  ∈ [Json.mk "665f1c2ab7e4d90a1c3e5f72" "Field trip" (Some "2025-06-02")
       "2025-06-10"]
  ↔ in_window (mkdate 2025 6 2) (Some (mkdate 2025 6 2)) (mkdate 2025 6 10).
Proof.
  apply (get_announcements_by_calendar (mkdate 2025 6 2) Term.store
           [Json.mk "665f1c2ab7e4d90a1c3e5f72" "Field trip"
              (Some "2025-06-02") "2025-06-10"]
           Example.trip "Field trip" (Some (mkdate 2025 6 2))
           (mkdate 2025 6 10)).
  - reflexivity.
  - reflexivity.
  - reflexivity.
  - vm_compute. reflexivity.
  - vm_compute. reflexivity.
Defined.

Lemma by_expiration_date_chronological a b :
  by_expiration_date a b → chronological a b.
Proof.
  intros Hab ea eb Ha Hb Hea Heb. unfold by_expiration_date in Hab.
  rewrite Hea, Heb in Hab. by apply leb_isoformat in Hab.
Qed.

Lemma StronglySorted_weaken {A} (R S : relation A) l :
  (∀ x y, R x y → S x y) → StronglySorted R l → StronglySorted S l.
Proof.
  intros HRS. induction 1 as [|x l Hl IH Hx]; constructor; [done|].
  eapply Forall_impl; [done|]. auto.
Qed.

(** X20. Both listings come out in calendar order of the expiration dates:
    of any two returned objects whose expiration dates are ISO texts, the
    earlier one in the list does not expire after the later one. *)
Theorem listings_chronological db :
  (∀ today out,
     (get_announcements today db).1 = Returned out →
     StronglySorted chronological out)
  ∧ (∀ teacher_username out,
       (get_all_announcements teacher_username db).1 = Returned out →
       StronglySorted chronological out).
Proof.
  split.
  - intros today out. rewrite get_announcements_eq. intros [= <-].
    eapply StronglySorted_weaken; [apply by_expiration_date_chronological|].
    apply sort_expiration_date.
  - intros teacher_username out.
    unfold get_all_announcements, bind at 1.
    destruct (_validate_teacher teacher_username db) as [g db1] eqn:Hg.
    apply _validate_teacher_inv in Hg as [-> _].
    destruct g as [teacher|e]; [|done].
    unfold bind, announcements, ret. cbn -[Mongo.sort]. intros [= <-].
    eapply StronglySorted_weaken; [|apply sort_expiration_then_start].
    intros a b [Hab _]. by apply by_expiration_date_chronological.
Qed.

Lemma supplied_isoformat start :
  supplied (Date.isoformat <$> start) = Date.isoformat <$> start.
Proof. by destruct start. Qed.

(** X21. A write goes public by the calendar: after a successful create or
    update whose dates are the ISO texts of [start] (if any) and
    [expiration], the public listing on the resulting store contains the
    returned object exactly on the days from the start date to the
    expiration date, both included. *)
Theorem written_announcement_goes_public today start expiration :
  Date.valid today = true →
  Date.valid expiration = true →
  from_option (λ b, Date.valid b = true) True start →
  (∀ new_id message teacher_username db out db' listing,
     create_announcement new_id message (Date.isoformat expiration)
       (Date.isoformat <$> start) teacher_username db = (Returned out, db') →
     (get_announcements today db').1 = Returned listing →
     out ∈ listing ↔ in_window today start expiration)
  ∧ (∀ announcement_id message teacher_username db out db' listing,
       update_announcement announcement_id message
         (Date.isoformat expiration) (Date.isoformat <$> start)
         teacher_username db = (Returned out, db') →
       (get_announcements today db').1 = Returned listing →
       out ∈ listing ↔ in_window today start expiration).
Proof.
  intros Ht He Hs. split.
  - intros new_id message teacher_username db out db' listing
      [(e & [=] & _) | (ps & pe & H)]%create_announcement_inv Hlist.
    destruct H as (_ & _ & _ & _ & _ & _ & -> & [= ->]).
    rewrite supplied_isoformat in *.
    eapply listed_iff_in_window; [done..|]. apply lookup_insert_eq.
  - intros announcement_id message teacher_username db out db' listing
      [(e & [=] & _) | (object_id & ps & pe & H)]%update_announcement_inv
      Hlist.
    destruct H as (_ & _ & _ & _ & _ & _ & _ & -> & [= ->]).
    rewrite supplied_isoformat in *.
    eapply listed_iff_in_window; [done..|]. apply lookup_insert_eq.
Qed.

Lemma written_announcement_goes_public_witness :
  Json.mk "665f1c2ab7e4d90a1c3e5f72" "Field trip" (Some "2025-06-02")
    "2025-06-10"
  ∈ [Json.mk "665f1c2ab7e4d90a1c3e5f72" "Field trip" (Some "2025-06-02")
       "2025-06-10";
     Json.mk "665f1c2ab7e4d90a1c3e5f71" "Science fair" (Some "")
       "2025-06-20"]
  ↔ in_window (mkdate 2025 6 10) (Some (mkdate 2025 6 2)) (mkdate 2025 6 10).
Proof.
  apply (proj1 (written_announcement_goes_public (mkdate 2025 6 10)
                  (Some (mkdate 2025 6 2)) (mkdate 2025 6 10)
                  eq_refl eq_refl eq_refl)
           Example.trip " Field trip " (Some Example.teacher) Example.school
           _
           (create_announcement Example.trip " Field trip "
              (Date.isoformat (mkdate 2025 6 10))
              (Date.isoformat <$> Some (mkdate 2025 6 2))
              (Some Example.teacher) Example.school).2).
  - vm_compute. reflexivity.
  - vm_compute. reflexivity.
Defined.

End calendar.
